(** * read_p1: a shallow embedding of the P1 telegram reader

    The development follows [read_p1.py]: the OBIS registry, the CRC check
    of a telegram ([checkcrc]), the line decoder ([parsetelegramline]), the
    time conversion ([to_unixtime]), the CSV writer ([write_csv]), the body
    of the acquisition loop of [main], and the [?live] branch of
    [Handler.do_GET].

    Conventions.
    - Python [bytes] and [bytearray] values are lists of 8-bit characters.
    - Python [str] values are lists of characters too.  All text the program
      handles comes out of [decode('ascii')], so every character is below
      128 and the bytes and the text coincide; the one exception,
      [bytearray.fromhex(..).decode()], is represented by its UTF-8 bytes.
    - Code that can raise returns a [result]: [Ok v] or [Raise e].
    - Code with side effects (the CSV files, [latest_data], the telegram
      buffer, the serial port) passes a [State] explicitly.
    - Library calls ([int], [hex], [str.strip], [re], [strptime], [crcmod])
      are modelled after CPython 3.11 on the inputs the program gives
      them; [float] parsing, addition and printing form an interface.
    - [debug] is [False], as in the source; what the program prints is
      not part of the state.  [KeyboardInterrupt] and the scheduling of
      the server thread are outside the model: a request reads the
      [latest_data] of the state it is answered in. *)

From Stdlib Require Import Ascii String List ZArith Lia Bool Arith.
From Stdlib Require Import DecimalString HexadecimalString.
From Stdlib Require Import DecimalZ HexadecimalN.
Import ListNotations.

Local Open Scope Z_scope.

(* ================================================================== *)
(** * Part I: definitions *)
(* ================================================================== *)

(** ** Python values shared by all functions *)

Module Py.

(** Text and bytes. *)
Definition str := list ascii.
Definition bytes := list ascii.

(** A literal, written as a Rocq string. *)
Definition lit (s : string) : list ascii := list_ascii_of_string s.

Definition CR : ascii := ascii_of_nat 13.
Definition LF : ascii := ascii_of_nat 10.

(** The exceptions the program can raise.  [UnboundLocalError] is a
    subclass of [NameError] in Python; both carry the variable's name. *)
Inductive exn : Type :=
| IndexError
| KeyError (key : str)
| NameError (name : str)
| UnboundLocalError (name : str)
| ValueError
| TypeError
| UnicodeDecodeError
| OSError.

Inductive result (A : Type) : Type :=
| Ok (a : A)
| Raise (e : exn).
Arguments Ok {A} a.
Arguments Raise {A} e.

Definition bind {A B} (r : result A) (k : A -> result B) : result B :=
  match r with
  | Ok a => k a
  | Raise e => Raise e
  end.

Definition of_option {A} (e : exn) (o : option A) : result A :=
  match o with
  | Some a => Ok a
  | None => Raise e
  end.

(** Code point of a character. *)
Definition ord (c : ascii) : Z := Z.of_N (N_of_ascii c).

Definition in_range (lo hi : Z) (c : ascii) : bool :=
  (lo <=? ord c) && (ord c <=? hi).

(** Equality of texts, [a == b]. *)
Fixpoint str_eqb (a b : list ascii) : bool :=
  match a, b with
  | [], [] => true
  | x :: a', y :: b' => Ascii.eqb x y && str_eqb a' b'
  | _, _ => false
  end.

(** [s.startswith(p)]. *)
Fixpoint startswith (p s : list ascii) : bool :=
  match p, s with
  | [], _ => true
  | x :: p', y :: s' => Ascii.eqb x y && startswith p' s'
  | _ :: _, [] => false
  end.

(** [needle in s] for texts. *)
Fixpoint contains (needle s : list ascii) : bool :=
  startswith needle s ||
  match s with
  | [] => false
  | _ :: s' => contains needle s'
  end.

(** [b.decode('ascii')]: fails on any byte above 127. *)
Definition is_ascii (c : ascii) : bool := ord c <? 128.

Definition decode_ascii (b : bytes) : result str :=
  if forallb is_ascii b then Ok b else Raise UnicodeDecodeError.

(** [str.strip()] removes the characters for which [str.isspace()]
    holds; below 128 these are 9..13, 28..31 and 32. *)
Definition isspace (c : ascii) : bool :=
  in_range 9 13 c || in_range 28 32 c.

Fixpoint lstrip (p : ascii -> bool) (s : list ascii) : list ascii :=
  match s with
  | [] => []
  | c :: s' => if p c then lstrip p s' else s
  end.

Definition rstrip (p : ascii -> bool) (s : list ascii) : list ascii :=
  rev (lstrip p (rev s)).

Definition strip (s : str) : str := rstrip isspace (lstrip isspace s).

(** *** [int(s, 16)] and [hex(n)] *)

Definition hexval (c : ascii) : option Z :=
  if in_range 48 57 c then Some (ord c - 48)
  else if in_range 97 102 c then Some (ord c - 87)
  else if in_range 65 70 c then Some (ord c - 55)
  else None.

Definition is_hexdigit (c : ascii) : bool :=
  match hexval c with Some _ => true | None => false end.

(** The number a run of hexadecimal digits denotes. *)
Definition digit_value (c : ascii) : Z :=
  match hexval c with Some d => d | None => 0 end.

Definition hex_value (ds : str) : Z :=
  fold_left (fun acc c => 16 * acc + digit_value c) ds 0.

Definition underscore : ascii := "_"%char.

(** The digit loop of [int]: hexadecimal digits, single underscores
    between them, none at the end. *)
Fixpoint hexdigits (acc : Z) (prev_us : bool) (s : str) : option Z :=
  match s with
  | [] => if prev_us then None else Some acc
  | c :: s' =>
      if Ascii.eqb c underscore then
        if prev_us then None else hexdigits acc true s'
      else
        match hexval c with
        | Some d => hexdigits (16 * acc + d) false s'
        | None => None
        end
  end.

(** White space as [int] sees it around the number. *)
Definition c_isspace (c : ascii) : bool :=
  in_range 9 13 c || Ascii.eqb c " "%char.

(** [int(s, 16)]: optional sign, optional [0x] or [0X] (after which one
    underscore may stand), at least one digit, nothing else. *)
Definition int_sign (s : str) : bool * str :=
  match s with
  | c :: r =>
      if Ascii.eqb c "+"%char then (false, r)
      else if Ascii.eqb c "-"%char then (true, r)
      else (false, s)
  | [] => (false, s)
  end.

Definition int_prefix16 (s : str) : str :=
  match s with
  | z :: x :: r =>
      if Ascii.eqb z "0"%char &&
         (Ascii.eqb x "x"%char || Ascii.eqb x "X"%char)
      then match r with
           | u :: r' => if Ascii.eqb u underscore then r' else r
           | [] => r
           end
      else s
  | _ => s
  end.

Definition int_digits16 (s : str) : option Z :=
  match s with
  | [] => None
  | c :: _ => if Ascii.eqb c underscore then None else hexdigits 0 false s
  end.

Definition int16 (s : str) : result Z :=
  let '(neg, s1) := int_sign (rstrip c_isspace (lstrip c_isspace s)) in
  match int_digits16 (int_prefix16 s1) with
  | Some n => Ok (if neg then - n else n)
  | None => Raise ValueError
  end.

(** [hex(n)]: [0x] and lower-case digits, a leading [-] when negative. *)
Definition hex_abs (n : N) : str :=
  lit "0x" ++
  list_ascii_of_string
    (HexadecimalString.NilZero.string_of_uint (N.to_hex_uint n)).

Definition hex (n : Z) : str :=
  if n <? 0 then "-"%char :: hex_abs (Z.abs_N n) else hex_abs (Z.abs_N n).

(** [str(n)] for an integer. *)
Definition str_of_int (n : Z) : str :=
  list_ascii_of_string
    (DecimalString.NilZero.string_of_int (Z.to_int n)).

(** *** Splitting and slicing *)

(** [s.split(sep)] for a non-empty separator: cut at every match, left
    to right, and go on after the match.  [skip] counts the characters
    of a match still to pass over, [cur] holds the current piece in
    reverse. *)
Fixpoint split_go (sep : list ascii) (skip : nat) (cur : list ascii)
  (s : list ascii) : list (list ascii) :=
  match s with
  | [] => [rev cur]
  | c :: s' =>
      match skip with
      | S k => split_go sep k cur s'
      | O =>
          if startswith sep s
          then rev cur :: split_go sep (length sep - 1) [] s'
          else split_go sep 0 (c :: cur) s'
      end
  end.

Definition split (sep s : list ascii) : list (list ascii) :=
  split_go sep 0 [] s.

(** [s[1:-1]]. *)
Definition slice_1_m1 (s : str) : str := removelast (tl s).

(** [s[-1]]; [s[:-1]] is [removelast s]. *)
Definition item_last (s : str) : result ascii :=
  match rev s with
  | c :: _ => Ok c
  | [] => Raise IndexError
  end.

(** *** [re.findall(r'\(.*?\)', s)] *)

(** After an opening parenthesis: the shortest run of characters other
    than a line feed that ends at a closing parenthesis. *)
Fixpoint lazy_group (s : str) : option str :=
  match s with
  | [] => None
  | c :: s' =>
      if Ascii.eqb c ")"%char then Some []
      else if Ascii.eqb c LF then None
      else option_map (cons c) (lazy_group s')
  end.

(** All matches, left to right, without overlap. *)
Fixpoint findall_go (skip : nat) (s : str) : list str :=
  match s with
  | [] => []
  | c :: s' =>
      match skip with
      | S k => findall_go k s'
      | O =>
          if Ascii.eqb c "("%char then
            match lazy_group s' with
            | Some inner =>
                (c :: inner ++ [")"%char])
                  :: findall_go (length inner + 1) s'
            | None => findall_go 0 s'
            end
          else findall_go 0 s'
      end
  end.

Definition findall_groups (s : str) : list str := findall_go 0 s.

(** *** [bytearray.fromhex(s).decode()] *)

(** Pairs of hexadecimal digits, white space allowed between pairs. *)
Fixpoint fromhex (s : str) : option bytes :=
  match s with
  | [] => Some []
  | c :: s' =>
      if c_isspace c then fromhex s'
      else
        match s' with
        | d :: s'' =>
            match hexval c, hexval d, fromhex s'' with
            | Some hi, Some lo, Some r =>
                Some (ascii_of_N (Z.to_N (16 * hi + lo)) :: r)
            | _, _, _ => None
            end
        | [] => None
        end
  end.

Definition cont (c : ascii) : bool := in_range 128 191 c.

(** Well-formed UTF-8, as the strict decoder accepts it. *)
Fixpoint utf8_valid (b : bytes) : bool :=
  match b with
  | [] => true
  | c0 :: r =>
      if is_ascii c0 then utf8_valid r
      else if in_range 194 223 c0 then
        match r with
        | c1 :: r1 => cont c1 && utf8_valid r1
        | _ => false
        end
      else if in_range 224 239 c0 then
        match r with
        | c1 :: c2 :: r2 =>
            (if Ascii.eqb c0 (ascii_of_nat 224) then in_range 160 191 c1
             else if Ascii.eqb c0 (ascii_of_nat 237) then in_range 128 159 c1
             else cont c1)
            && cont c2 && utf8_valid r2
        | _ => false
        end
      else if in_range 240 244 c0 then
        match r with
        | c1 :: c2 :: c3 :: r3 =>
            (if Ascii.eqb c0 (ascii_of_nat 240) then in_range 144 191 c1
             else if Ascii.eqb c0 (ascii_of_nat 244) then in_range 128 143 c1
             else cont c1)
            && cont c2 && cont c3 && utf8_valid r3
        | _ => false
        end
      else false
  end.

(** [b.decode()]: the text, kept as its UTF-8 bytes. *)
Definition decode_utf8 (b : bytes) : result str :=
  if utf8_valid b then Ok b else Raise UnicodeDecodeError.

(** *** Dictionaries, in insertion order *)

Definition dict (V : Type) : Type := list (str * V).

Fixpoint dict_get {V} (d : dict V) (k : str) : option V :=
  match d with
  | [] => None
  | (k', v) :: d' => if str_eqb k' k then Some v else dict_get d' k
  end.

(** [d[k] = v]: an existing key keeps its place. *)
Fixpoint dict_set {V} (d : dict V) (k : str) (v : V) : dict V :=
  match d with
  | [] => [(k, v)]
  | (k', v') :: d' =>
      if str_eqb k' k then (k', v) :: d' else (k', v') :: dict_set d' k v
  end.

(** [d[k]], raising [KeyError]. *)
Definition dict_item {V} (d : dict V) (k : str) : result V :=
  of_option (KeyError k) (dict_get d k).

(** *** Floating-point numbers

    The program parses numbers with [float(..)], adds them with [+] and
    prints them in an f-string.  These three operations of the Python
    runtime are taken as an interface. *)
Class PyFloat : Type := {
  float : Type;
  float_of_str : str -> option float;
  float_add : float -> float -> float;
  float_str : float -> str
}.

End Py.

Import Py.

Declare Scope py_scope.
Notation "x <- e ;; k" := (bind e (fun x => k))
  (at level 61, e at next level, right associativity) : py_scope.
Open Scope py_scope.

(** ** CRC-16/ARC, what [crcmod.predefined.mkPredefinedCrcFun('crc16')]
    computes: polynomial 0x8005 reflected (0xA001), initial value 0, no
    final xor. *)

Module Crc16.

Definition step_bit (crc : Z) : Z :=
  if Z.testbit crc 0
  then Z.lxor (Z.shiftr crc 1) 40961
  else Z.shiftr crc 1.

Definition step_byte (crc : Z) (c : ascii) : Z :=
  Nat.iter 8 step_bit (Z.lxor crc (ord c)).

Definition crc16 (data : bytes) : Z := fold_left step_byte data 0.

End Crc16.

(** ** [checkcrc] *)

(** The end marker with the line terminator before it. *)
Definition bang : ascii := "!"%char.
Definition end_marker : bytes := [CR; LF; bang].

(** The positions [match.end()] of the matches of [\r\n(?=!)] in the
    telegram, in order.  A match covers [\r\n]; the byte after a match's
    start is [\n], so the next match cannot start inside it. *)
Fixpoint finditer_from (pos : nat) (t : bytes) : list nat :=
  match t with
  | [] => []
  | _ :: t' =>
      if startswith end_marker t
      then (pos + 2)%nat :: finditer_from (S pos) t'
      else finditer_from (S pos) t'
  end.

Definition finditer (t : bytes) : list nat := finditer_from 0 t.

(** The body of the [for] loop of [checkcrc] for one match: the two local
    variables it binds. *)
Definition checkcrc_bind (t : bytes) (match_end : nat)
  : result (bytes * str) :=
  let p1contents := firstn (match_end + 1) t in
  text <- decode_ascii (skipn (match_end + 1) t) ;;
  n <- int16 (strip text) ;;
  Ok (p1contents, hex n).

(** The whole [for] loop: the variables stay unbound without a match, and
    every later match rebinds them. *)
Fixpoint checkcrc_loop (t : bytes) (ms : list nat)
  (locals : option (bytes * str)) : result (option (bytes * str)) :=
  match ms with
  | [] => Ok locals
  | m :: ms' =>
      b <- checkcrc_bind t m ;;
      checkcrc_loop t ms' (Some b)
  end.

Definition checkcrc (p1telegram : bytes) : result bool :=
  locals <- checkcrc_loop p1telegram (finditer p1telegram) None ;;
  match locals with
  | None => Raise (UnboundLocalError (lit "p1contents"))
  | Some (p1contents, givencrc) =>
      let calccrc := hex (Crc16.crc16 p1contents) in
      if negb (str_eqb givencrc calccrc) then Ok false else Ok true
  end.

(** The split the specification describes: the telegram up to and
    including the first [\r\n!], and what follows it. *)
Fixpoint split_at_end_marker (t : bytes) : option (bytes * bytes) :=
  match t with
  | [] => None
  | c :: t' =>
      if startswith end_marker t then Some (end_marker, skipn 3 t)
      else match split_at_end_marker t' with
           | Some (content, suffix) => Some (c :: content, suffix)
           | None => None
           end
  end.

(** The number [checkcrc] reads behind an end marker:
    [int(suffix.decode('ascii').strip(), 16)]. *)
Definition checksum_number (suffix : bytes) : result Z :=
  text <- decode_ascii suffix ;; int16 (strip text).

(** ** The OBIS registry *)

Definition obiscodes : dict str :=
  [ (lit "0-0:1.0.0", lit "Timestamp");
    (lit "0-0:96.3.10", lit "Switch electricity");
    (lit "0-1:24.4.0", lit "Switch gas");
    (lit "0-0:96.14.0", lit "Current rate (1=day,2=night)");
    (lit "1-0:1.8.1", lit "Rate 1 (day) - total consumption");
    (lit "1-0:1.8.2", lit "Rate 2 (night) - total consumption");
    (lit "1-0:2.8.1", lit "Rate 1 (day) - total production");
    (lit "1-0:2.8.2", lit "Rate 2 (night) - total production");
    (lit "1-0:21.7.0", lit "L1 consumption");
    (lit "1-0:41.7.0", lit "L2 consumption");
    (lit "1-0:61.7.0", lit "L3 consumption");
    (lit "1-0:1.7.0", lit "All phases consumption");
    (lit "1-0:22.7.0", lit "L1 production");
    (lit "1-0:42.7.0", lit "L2 production");
    (lit "1-0:62.7.0", lit "L3 production");
    (lit "1-0:2.7.0", lit "All phases production");
    (lit "1-0:32.7.0", lit "L1 voltage");
    (lit "1-0:52.7.0", lit "L2 voltage");
    (lit "1-0:72.7.0", lit "L3 voltage");
    (lit "1-0:31.7.0", lit "L1 current");
    (lit "1-0:51.7.0", lit "L2 current");
    (lit "1-0:71.7.0", lit "L3 current");
    (lit "0-1:24.2.3", lit "Gas consumption");
    (lit "0-1:24.2.1", lit "Gas consumption") ].

(** The two entries the source keeps commented out. *)
Definition serial_codes : dict str :=
  [ (lit "0-0:96.1.1", lit "Meter serial electricity");
    (lit "0-1:96.1.1", lit "Meter serial gas") ].

(** The code of the time stamp, and the separator of value and unit. *)
Definition timestamp_code : str := lit "0-0:1.0.0".
Definition star : ascii := "*"%char.

(** ** [parsetelegramline] *)

Section LineDecoder.

Context {PF : PyFloat}.

(** A decoded value: text or a number. *)
Inductive value : Type :=
| VStr (s : str)
| VFloat (f : float).

(** The dictionary [parsetelegramline] returns when the code is known. *)
Record row : Type := mkRow {
  desc : str;
  val : value;
  unit_text : str
}.

(** The OBIS code of a line: [p1line.split("(")[0]]. *)
Definition obis_of (p1line : str) : str :=
  hd [] (split (lit "(") p1line).

(** The value text: the second group when there is one, else the first,
    without its parentheses. *)
Definition captured_group (values : list str) : result str :=
  v0 <- of_option IndexError (nth_error values 0) ;;
  let value := slice_1_m1 v0 in
  Ok (if (1 <? length values)%nat
      then slice_1_m1 (nth 1 values [])
      else value).

(** [parsetelegramline] over a registry; [None] is the empty
    dictionary [{}]. *)
Definition parsetelegramline_in (codes : dict str) (p1line : str)
  : result (option row) :=
  let unit := [] in
  let obis := obis_of p1line in
  match dict_get codes obis with
  | Some description =>
      let values := findall_groups p1line in
      value <- captured_group values ;;
      if contains (lit "96.1.1") obis then
        raw <- of_option ValueError (fromhex value) ;;
        text <- decode_utf8 raw ;;
        Ok (Some (mkRow description (VStr text) unit))
      else if negb (contains (lit "1.0.0") obis) then
        let lvalue := split (lit "*") value in
        number <- of_option ValueError (float_of_str (hd [] lvalue)) ;;
        let unit :=
          if (1 <? length lvalue)%nat then nth 1 lvalue [] else unit in
        Ok (Some (mkRow description (VFloat number) unit))
      else
        Ok (Some (mkRow description (VStr value) unit))
  | None => Ok None
  end.

Definition parsetelegramline (p1line : str) : result (option row) :=
  parsetelegramline_in obiscodes p1line.

(** A line that does not decode to a row with the given description. *)
Definition no_row_for (key : str) (line : bytes) : Prop :=
  forall text r,
    decode_ascii line = Ok text ->
    parsetelegramline text = Ok (Some r) ->
    desc r <> key.

(** A record in which the time stamp is text and every other field a
    number. *)
Definition well_typed (output : dict value) : Prop :=
  forall k v, dict_get output k = Some v ->
    if str_eqb k (lit "Timestamp")
    then exists s, v = VStr s
    else exists f, v = VFloat f.

End LineDecoder.

(** ** A decimal instance of the number interface

    Numbers with finitely many decimals, [m / 10^e], added exactly and
    printed the way Python prints such a float: at least one decimal, no
    trailing zeros.  It runs the model on sample telegrams and is no
    model of [float]: it reads plain digits with at most one point (no
    sign, exponent, white space, underscore, [inf] or [nan]), and its
    sums are exact where a binary float rounds ([0.1 + 0.2] prints
    [0.3] here).  The theorems hold for every instance of [PyFloat];
    this one appears only in sample runs, on values where it agrees
    with [float]. *)

Module Decimal.

Record t : Type := mk { mant : Z; scale : nat }.

Definition is_digit (c : ascii) : bool := in_range 48 57 c.

Fixpoint digits (acc : Z) (s : str) : option Z :=
  match s with
  | [] => Some acc
  | c :: s' =>
      if is_digit c then digits (10 * acc + (ord c - 48)) s' else None
  end.

(** Digits, or digits, a point, digits; at least one digit on each
    side of the point. *)
Definition of_str (s : str) : option t :=
  match split (lit ".") s with
  | [ip] =>
      match ip, digits 0 ip with
      | _ :: _, Some m => Some (mk m 0)
      | _, _ => None
      end
  | [ip; fp] =>
      match ip, fp, digits 0 (ip ++ fp) with
      | _ :: _, _ :: _, Some m => Some (mk m (length fp))
      | _, _, _ => None
      end
  | _ => None
  end.

Definition add (a b : t) : t :=
  let e := Nat.max (scale a) (scale b) in
  mk (mant a * 10 ^ Z.of_nat (e - scale a)
      + mant b * 10 ^ Z.of_nat (e - scale b)) e.

(** Drop trailing zeros of the fraction, keeping one decimal. *)
Fixpoint normalize (fuel : nat) (m : Z) (e : nat) : Z * nat :=
  match fuel, e with
  | S fuel', S (S e') =>
      if m mod 10 =? 0 then normalize fuel' (m / 10) (S e') else (m, e)
  | _, _ => (m, e)
  end.

Definition pad_left (n : nat) (s : str) : str :=
  repeat "0"%char (n - length s) ++ s.

Definition to_str (a : t) : str :=
  let '(m, e) := normalize (scale a) (mant a) (Nat.max 1 (scale a)) in
  let m := if (scale a =? 0)%nat then 10 * m else m in
  let ds := pad_left (S e) (str_of_int (Z.abs m)) in
  let n := (length ds - e)%nat in
  (if m <? 0 then ["-"%char] else [])
    ++ firstn n ds ++ "."%char :: skipn n ds.

Definition pyfloat : PyFloat :=
  {| float := t; float_of_str := of_str; float_add := add;
     float_str := to_str |}.

End Decimal.

(** ** Regular expressions, as [re.match] runs them

    Alternatives are tried in order and a repetition takes as much as it
    can first; [rmatch] lists the ways an expression matches a prefix of
    the text in that order, so the match [re.match] reports is the head
    of the list. *)

Module Re.

Inductive regex : Type :=
| Chr (p : ascii -> bool)
| Eps
| Seq (a b : regex)
| Alt (a b : regex).

Definition Opt (e : regex) : regex := Alt e Eps.

Fixpoint rmatch (e : regex) (s : str) : list (str * str) :=
  match e with
  | Chr p =>
      match s with
      | c :: s' => if p c then [([c], s')] else []
      | [] => []
      end
  | Eps => [([], s)]
  | Seq a b =>
      flat_map
        (fun m1 => map (fun m2 => (fst m1 ++ fst m2, snd m2))
                       (rmatch b (snd m1)))
        (rmatch a s)
  | Alt a b => rmatch a s ++ rmatch b s
  end.

(** A sequence of groups: the text of each group and the rest. *)
Fixpoint match_groups (es : list regex) (s : str)
  : list (list str * str) :=
  match es with
  | [] => [([], s)]
  | e :: es' =>
      flat_map
        (fun m => map (fun ms => (fst m :: fst ms, snd ms))
                      (match_groups es' (snd m)))
        (rmatch e s)
  end.

(** No character class of the expression accepts a character of [P]. *)
Fixpoint avoids (P : ascii -> bool) (e : regex) : Prop :=
  match e with
  | Chr p => forall c, P c = true -> p c = false
  | Eps => True
  | Seq a b | Alt a b => avoids P a /\ avoids P b
  end.

(** The rest of every match, with [u] put back behind it. *)
Definition extend {A} (u : str) (m : A * str) : A * str :=
  (fst m, snd m ++ u).

Definition char (c : ascii) : regex := Chr (Ascii.eqb c).
Definition range (lo hi : Z) : regex := Chr (in_range lo hi).
Definition digit : regex := range 48 57.
Definition between (lo hi : ascii) : regex := range (ord lo) (ord hi).

End Re.

(** ** [datetime.strptime(s, '%y%m%d%H%M%S%z')] and [.timestamp()]

    [strptime] turns the format into one regular expression with a group
    per directive, matches it at the start of the text, rejects text left
    over, and builds the date from the groups.  [\d] stands for the ASCII
    digits, the only ones in decoded telegram text. *)

Module Strptime.

Import Re.

Local Open Scope char_scope.

(** The expressions of the directives. *)
Definition re_y : regex := Seq digit digit.
Definition re_m : regex :=
  Alt (Seq (char "1") (between "0" "2"))
    (Alt (Seq (char "0") (between "1" "9")) (between "1" "9")).
Definition re_d : regex :=
  Alt (Seq (char "3") (between "0" "1"))
    (Alt (Seq (between "1" "2") digit)
       (Alt (Seq (char "0") (between "1" "9"))
          (Alt (between "1" "9") (Seq (char " ") (between "1" "9"))))).
Definition re_H : regex :=
  Alt (Seq (char "2") (between "0" "3"))
    (Alt (Seq (between "0" "1") digit) digit).
Definition re_M : regex := Alt (Seq (between "0" "5") digit) digit.
Definition re_S : regex :=
  Alt (Seq (char "6") (between "0" "1"))
    (Alt (Seq (between "0" "5") digit) digit).

(** [\d{1,6}], longest first. *)
Definition digits_1_6 : regex :=
  Seq digit (Opt (Seq digit (Opt (Seq digit (Opt (Seq digit
    (Opt (Seq digit (Opt digit))))))))).

(** What follows the sign in [%z]. *)
Definition re_z_tail : regex :=
  Seq digit (Seq digit (Seq (Opt (char ":")) (Seq (between "0" "5")
    (Seq digit
       (Opt (Seq (Opt (char ":")) (Seq (between "0" "5") (Seq digit
          (Opt (Seq (char ".") digits_1_6)))))))))).

Definition is_sign (c : ascii) : bool := Ascii.eqb c "+" || Ascii.eqb c "-".

Definition re_z : regex := Alt (Seq (Chr is_sign) re_z_tail) (char "Z").

Definition format_regex : list regex :=
  [re_y; re_m; re_d; re_H; re_M; re_S; re_z].

Local Close Scope char_scope.

(** [int(s)] for the text of a numeric group: decimal digits, white
    space before them passed over. *)
Definition int10 (s : str) : Z :=
  fold_left (fun acc c => if in_range 48 57 c then 10 * acc + (ord c - 48)
                          else acc) s 0.

Definition all_digits (s : str) : bool := forallb (in_range 48 57) s.

(** The offset of a [%z] group, in microseconds. *)
Definition gmtoff_us (z0 : str) : option Z :=
  if str_eqb z0 (lit "Z") then Some 0
  else
    let z :=
      if Ascii.eqb (nth 3 z0 " "%char) ":"%char
      then
        let z1 := firstn 3 z0 ++ skipn 4 z0 in
        if (5 <? length z1)%nat
        then if Ascii.eqb (nth 5 z1 " "%char) ":"%char
             then Some (firstn 5 z1 ++ skipn 6 z1)
             else None
        else Some z1
      else Some z0 in
    match z with
    | None => None
    | Some z =>
        let sec_text := firstn 2 (skipn 5 z) in
        if all_digits sec_text then
          let hours := int10 (firstn 2 (skipn 1 z)) in
          let minutes := int10 (firstn 2 (skipn 3 z)) in
          let seconds := int10 sec_text in
          let gmtoff := hours * 60 * 60 + minutes * 60 + seconds in
          let remainder := skipn 8 z in
          let fraction :=
            int10 (remainder ++ repeat "0"%char (6 - length remainder)) in
          let us := gmtoff * 1000000 + fraction in
          Some (if startswith (lit "-") z then - us else us)
        else None
    end.

Definition is_leap (y : Z) : bool :=
  (y mod 4 =? 0) && (negb (y mod 100 =? 0) || (y mod 400 =? 0)).

Definition days_in_month (y m : Z) : Z :=
  if m =? 2 then (if is_leap y then 29 else 28)
  else if (m =? 4) || (m =? 6) || (m =? 9) || (m =? 11) then 30
  else 31.

Definition days_before_year (y : Z) : Z :=
  let y1 := y - 1 in y1 * 365 + y1 / 4 - y1 / 100 + y1 / 400.

Fixpoint days_before_month (y : Z) (m : nat) : Z :=
  match m with
  | O => 0
  | S m' => days_before_month y m' + days_in_month y (Z.of_nat m)
  end.

(** [date(y, m, d).toordinal()]. *)
Definition toordinal (y m d : Z) : Z :=
  days_before_year y + days_before_month y (Z.to_nat m - 1) + d.

(** [date(1970, 1, 1).toordinal()]. *)
Definition epoch_ordinal : Z := 719163.

(** Seconds since the epoch for the texts of the six date and time
    groups and an offset in microseconds: the checks [date],
    [datetime] and [timezone] make, then the difference to the epoch,
    cut to an integer. *)
Definition timestamp_at (gy gm gd gH gM gS : str) (off : Z) : result Z :=
  let y := int10 gy in
  let year := if y <=? 68 then y + 2000 else y + 1900 in
  let month := int10 gm in
  let day := int10 gd in
  let second := int10 gS in
  if (day <=? days_in_month year month) && (second <=? 59)
     && (Z.abs off <? 86400 * 1000000)
  then
    let local :=
      (toordinal year month day - epoch_ordinal) * 86400
      + int10 gH * 3600 + int10 gM * 60 + second in
    Ok (Z.quot (local * 1000000 - off) 1000000)
  else Raise ValueError.

(** The values of the groups turned into seconds since the epoch; every
    failure of [strptime] is a [ValueError]. *)
Definition timestamp_of_groups (groups : list str) : result Z :=
  match groups with
  | [gy; gm; gd; gH; gM; gS; gz] =>
      match gmtoff_us gz with
      | Some off => timestamp_at gy gm gd gH gM gS off
      | None => Raise ValueError
      end
  | _ => Raise ValueError
  end.

(** What [strptime] and [timestamp] make of the first match. *)
Definition first_match (ms : list (list str * str)) : result Z :=
  match ms with
  | [] => Raise ValueError
  | (groups, rest) :: _ =>
      match rest with
      | [] => timestamp_of_groups groups
      | _ :: _ => Raise ValueError
      end
  end.

(** [int(datetime.strptime(s, '%y%m%d%H%M%S%z').timestamp())]. *)
Definition strptime_timestamp (s : str) : result Z :=
  first_match (match_groups format_regex s).


(** *** Texts that end in an offset [+hhmm] *)

Definition plus : ascii := "+"%char.
Definition is_plus (c : ascii) : bool := Ascii.eqb plus c.

Definition date_regex : list regex :=
  [re_y; re_m; re_d; re_H; re_M; re_S].

Definition summer : str := lit "0200".
Definition winter : str := lit "0100".

(** The candidates of the whole format on a text that ends in an
    offset [+hhmm], from the candidates of the date part. *)
Definition with_offset (off : str) (m1 : list str * str)
  : list (list str * str) :=
  match snd m1 with
  | [] => [(fst m1 ++ [plus :: off], [])]
  | _ :: _ =>
      map (fun m2 => (fst m1 ++ [fst m2], snd m2 ++ plus :: off))
          (rmatch re_z (snd m1))
  end.

(** Two results of which the second is one hour later. *)
Definition hour_apart (s w : result Z) : Prop :=
  (s = Raise ValueError /\ w = Raise ValueError)
  \/ exists t, s = Ok t /\ w = Ok (t + 3600).

End Strptime.

(** ** [to_unixtime] *)

Definition to_unixtime (p1time : str) : result Z :=
  let offset := lit "+0000" in
  last_char <- item_last p1time ;;
  offset <-
    (if Ascii.eqb last_char "W"%char then Ok (lit "+0100")
     else if Ascii.eqb last_char "S"%char then Ok (lit "+0200")
     else Raise (NameError (lit "lastChar"))) ;;
  let to_parse := removelast p1time ++ offset in
  Strptime.strptime_timestamp to_parse.

(** ** The program state and [write_csv] *)

Section Acquisition.

Context {PF : PyFloat}.

(** A field of a CSV row, before the [csv] module renders it. *)
Inductive cell : Type :=
| CStr (s : str)
| CFloat (f : float)
| CInt (n : Z).

Definition cell_of_value (v : value) : cell :=
  match v with
  | VStr s => CStr s
  | VFloat f => CFloat f
  end.

(** A file is the list of the rows appended to it; the file system maps
    the names of the existing files to their rows. *)
Definition csv_file : Type := list (list cell).
Definition filesystem : Type := dict csv_file.

(** What [main] and the request handler share or keep between
    iterations: the telegram buffer, the global [latest_data], the CSV
    files, whether the serial port is open, and, of the machine the
    program runs on, which files [open(.., 'a')] can open. *)
Record State : Type := mkState {
  p1telegram : bytes;
  latest_data : str;
  files : filesystem;
  can_append : str -> bool;
  port_open : bool
}.

Definition set_p1telegram (b : bytes) (st : State) : State :=
  mkState b (latest_data st) (files st) (can_append st) (port_open st).
Definition set_latest_data (d : str) (st : State) : State :=
  mkState (p1telegram st) d (files st) (can_append st) (port_open st).
Definition set_files (f : filesystem) (st : State) : State :=
  mkState (p1telegram st) (latest_data st) f (can_append st) (port_open st).
Definition close_port (st : State) : State :=
  mkState (p1telegram st) (latest_data st) (files st) (can_append st) false.

(** Statements that change the state and may raise: the state reached
    is returned in both cases. *)
Definition M (A : Type) : Type := State -> result A * State.

Definition ret {A} (a : A) : M A := fun st => (Ok a, st).
Definition lift {A} (r : result A) : M A := fun st => (r, st).
Definition bindM {A B} (m : M A) (k : A -> M B) : M B :=
  fun st =>
    match m st with
    | (Ok a, st') => k a st'
    | (Raise e, st') => (Raise e, st')
    end.
Definition modify (f : State -> State) : M unit :=
  fun st => (Ok tt, f st).

(** What [write_csv] leaves on disk: the header row when the file is
    new, then the row. *)
Definition append_row (filename : str) (row_data : dict cell)
  (fs : filesystem) : filesystem :=
  let file_exists :=
    match dict_get fs filename with Some _ => true | None => false end in
  let old := match dict_get fs filename with Some r => r | None => [] end in
  let headers := map fst row_data in
  let header_row := if negb file_exists then [map CStr headers] else [] in
  dict_set fs filename (old ++ header_row ++ [map snd row_data]).

(** [write_csv]: [open] raises when the file cannot be opened. *)
Definition write_csv (filename : str) (row_data : dict cell) : M unit :=
  fun st =>
    if can_append st filename
    then (Ok tt, set_files (append_row filename row_data (files st)) st)
    else (Raise OSError, st).

(** ** The body of the acquisition loop *)

(** [a + b] on decoded values. *)
Definition py_add (a b : value) : result value :=
  match a, b with
  | VFloat x, VFloat y => Ok (VFloat (float_add x y))
  | VStr x, VStr y => Ok (VStr (x ++ y))
  | _, _ => Raise TypeError
  end.

(** [f"{v}"]. *)
Definition format_value (v : value) : str :=
  match v with
  | VStr s => s
  | VFloat f => float_str f
  end.

(** A text operation applied to a decoded value. *)
Definition as_str (v : value) : result str :=
  match v with
  | VStr s => Ok s
  | VFloat _ => Raise TypeError
  end.

(** The [for] loop over the lines of a telegram, filling [output]. *)
Fixpoint parse_lines (lines : list bytes) (output : dict value)
  : result (dict value) :=
  match lines with
  | [] => Ok output
  | line :: lines' =>
      text <- decode_ascii line ;;
      row <- parsetelegramline text ;;
      match row with
      | Some r => parse_lines lines' (dict_set output (desc r) (val r))
      | None => parse_lines lines' output
      end
  end.

Definition quote : ascii := ascii_of_nat 34.

(** A text between double quotes. *)
Definition quoted (s : str) : str := quote :: s ++ [quote].

(** The f-string that becomes [latest_data]. *)
Definition snapshot_json (timestamp : Z) (consumption production : value)
  : str :=
  lit "{" ++ quoted (lit "ts") ++ lit ":" ++ quoted (str_of_int timestamp)
    ++ lit "," ++ quoted (lit "c") ++ lit ":"
    ++ quoted (format_value consumption)
    ++ lit "," ++ quoted (lit "p") ++ lit ":"
    ++ quoted (format_value production) ++ lit "}".

Definition rate1_consumption : str := lit "Rate 1 (day) - total consumption".
Definition rate2_consumption : str := lit "Rate 2 (night) - total consumption".
Definition rate1_production : str := lit "Rate 1 (day) - total production".
Definition rate2_production : str := lit "Rate 2 (night) - total production".

Definition rate_fields : list str :=
  [rate1_consumption; rate2_consumption; rate1_production; rate2_production].

Definition CRLF : bytes := [CR; LF].

(** [output[day] + output[night]]. *)
Definition total (output : dict value) (day night : str) : result value :=
  a <- dict_item output day ;;
  b <- dict_item output night ;;
  py_add a b.

(** The two rows [main] writes, and the names of their files. *)
Definition full_row (output : dict value) : dict cell :=
  map (fun kv => (fst kv, cell_of_value (snd kv))) output.

Definition summed_row (timestamp : Z) (consumption production : value)
  : dict cell :=
  [ (lit "timestamp", CInt timestamp);
    (lit "Total consumption", cell_of_value consumption);
    (lit "Total production", cell_of_value production) ].

Definition full_name (date : str) : str := lit "data/" ++ date ++ lit ".csv".
Definition summed_name (date : str) : str :=
  lit "data/" ++ date ++ lit "_summed.csv".

(** What [main] does with a telegram that passed [checkcrc]. *)
Definition process_telegram (telegram : bytes) : M unit :=
  bindM (lift (parse_lines (split CRLF telegram) [])) (fun output =>
  bindM (lift (p1time <- dict_item output (lit "Timestamp") ;;
               text <- as_str p1time ;; Ok (firstn 6 text))) (fun date =>
  bindM (write_csv (full_name date) (full_row output)) (fun _ =>
  bindM (lift (p1time <- dict_item output (lit "Timestamp") ;;
               text <- as_str p1time ;; to_unixtime text)) (fun timestamp =>
  bindM (lift (total output rate1_consumption rate2_consumption))
    (fun consumption =>
  bindM (lift (total output rate1_production rate2_production))
    (fun production =>
  let short := summed_row timestamp consumption production in
  bindM (write_csv (summed_name date) short) (fun _ =>
  let json := snapshot_json timestamp consumption production in
  modify (set_latest_data json)))))))).

(** [if checkcrc(p1telegram): ...]. *)
Definition validate_and_process (telegram : bytes) : M unit :=
  bindM (lift (checkcrc telegram)) (fun valid =>
    if valid then process_telegram telegram else ret tt).

(** The statements inside [try], for the line [ser.readline()]
    returned. *)
Definition try_body (p1line : bytes) : M unit :=
  bindM (lift (decode_ascii p1line)) (fun text =>
  bindM (if contains (lit "/") text
         then modify (set_p1telegram [])
         else ret tt) (fun _ =>
  bindM (modify (fun st => set_p1telegram (p1telegram st ++ p1line) st))
    (fun _ =>
  bindM (lift (decode_ascii p1line)) (fun text' =>
  if contains (lit "!") text' then
    fun st => validate_and_process (p1telegram st) st
  else ret tt)))).

(** The buffer after a line that decodes: emptied first when the line
    holds [/], then the line appended. *)
Definition framed (st : State) (p1line : bytes) : bytes :=
  (if contains (lit "/") p1line then [] else p1telegram st) ++ p1line.

(** One iteration of [while True]: an exception other than
    [KeyboardInterrupt] is swallowed and the port closed. *)
Definition loop_iteration (st : State) (p1line : bytes) : State :=
  match try_body p1line st with
  | (Ok _, st') => st'
  | (Raise _, st') => close_port st'
  end.

(** The loop over the lines the port delivers, for as long as the port
    is open.  [ser.flush()] at the end of an iteration stands outside
    [try]: on the port the handler closed, pyserial raises from it and
    [main] ends. *)
Fixpoint acquisition_loop (st : State) (input : list bytes) : State :=
  match input with
  | [] => st
  | p1line :: input' =>
      if port_open st
      then acquisition_loop (loop_iteration st p1line) input'
      else st
  end.

(** The state [main] starts the loop in, over the files on disk. *)
Definition initial_state (disk : filesystem) (openable : str -> bool)
  : State :=
  mkState [] [] disk openable true.

(** ** [Handler.do_GET] *)

Record response : Type := mkResponse {
  status : Z;
  headers : list (str * str);
  body : bytes
}.

(** The [?live] branch; [None] stands for the request handed on to
    [SimpleHTTPRequestHandler.do_GET]. *)
Definition do_GET (path : str) (st : State) : option response :=
  if contains (lit "?live") path then
    let data := latest_data st in
    Some (mkResponse 200
            [(lit "Content-type", lit "application/json")] data)
  else None.

End Acquisition.

(** ** Sample telegrams *)

Module Sample.

(** The decoded value [m / 10^e]. *)
Definition number (m : Z) (e : nat) : @value Decimal.pyfloat :=
  @VFloat Decimal.pyfloat (Decimal.mk m e).

Definition crlf (s : string) : bytes := lit s ++ [CR; LF].

(** A telegram with the time stamp and the four rate fields; [crc] is
    the checksum text of its last line.  The CRC-16 of its content is
    0xDEB0. *)
Definition lines (crc : string) : list bytes :=
  [ crlf "/XYZ5 meter"; [CR; LF];
    crlf "0-0:1.0.0(230615123045S)";
    crlf "1-0:1.8.1(000123.456*kWh)";
    crlf "1-0:1.8.2(000000.000*kWh)";
    crlf "1-0:2.8.1(000.000*kWh)";
    crlf "1-0:2.8.2(000.000*kWh)";
    crlf ("!" ++ crc) ].

Definition telegram (crc : string) : bytes := concat (lines crc).

(** The checksummed part of [telegram]: all of it up to the [!]. *)
Definition content : bytes := firstn 144 (telegram "0000").

(** A telegram with the time stamp only; the CRC-16 of its content is
    0xE1A4. *)
Definition lines_without_rates : list bytes :=
  [ crlf "/XYZ5 meter"; crlf "0-0:1.0.0(230615123045S)"; crlf "!E1A4" ].

Definition telegram_without_rates : bytes := concat lines_without_rates.

(** Two lines of a gas meter, one for each gas code. *)
Definition gas_line_1 : bytes :=
  lit "0-1:24.2.3(230615123000S)(00012.340*m3)".
Definition gas_line_2 : bytes :=
  lit "0-1:24.2.1(230615123000S)(00012.500*m3)".

(** A line with one byte damaged on the wire. *)
Definition damaged_line : bytes :=
  lit "1-0:1.8.1(00012" ++ ascii_of_nat 179 :: lit ".456*kWh)" ++ [CR; LF].

Definition start : @State Decimal.pyfloat :=
  initial_state [] (fun _ => true).

(** The loop after the first three lines of [telegram], and after all
    of its lines but the last. *)
Definition after_three_lines : @State Decimal.pyfloat :=
  acquisition_loop start (firstn 3 (lines "0000")).

Definition before_last_line : @State Decimal.pyfloat :=
  acquisition_loop start (removelast (lines "0000")).

Definition last_line (crc : string) : bytes := crlf ("!" ++ crc).

End Sample.

(** ** Further vocabulary *)

Module Crc16Inv.

Import Crc16.

(** The step back from [step_bit] on 16-bit values: the top bit of the
    result tells whether the polynomial was folded in. *)
Definition unstep_bit (r : Z) : Z :=
  if Z.testbit r 15 then 2 * Z.lxor r 40961 + 1 else 2 * r.

Definition is_crc (s : Z) : bool := (0 <=? s) && (s <? 65536).

End Crc16Inv.

(** The checksum as a meter writes it: four upper-case hexadecimal
    digits. *)
Definition hexdigit_upper (d : Z) : ascii :=
  ascii_of_N (Z.to_N (if d <? 10 then 48 + d else 55 + d)).

Definition checksum_text (crc : Z) : str :=
  [ hexdigit_upper (crc / 4096 mod 16); hexdigit_upper (crc / 256 mod 16);
    hexdigit_upper (crc / 16 mod 16); hexdigit_upper (crc mod 16) ].

(** A text in which none of the given characters occurs. *)
Definition free_of (stops : list ascii) (s : str) : Prop :=
  forall c, In c stops -> ~ In c s.

Definition lparen : ascii := "("%char.
Definition rparen : ascii := ")"%char.

(** The characters a registry code is made of: none of them opens or
    closes a group. *)
Definition code_shape (k : str) : bool :=
  negb (existsb (Ascii.eqb lparen) k) && negb (existsb (Ascii.eqb rparen) k)
  && match k with
     | c :: _ => Ascii.eqb c "0"%char || Ascii.eqb c "1"%char
     | [] => false
     end.

Section DecoderVocabulary.

Context {PF : PyFloat}.

(** The row of a number with its unit, or the fault of [float]. *)
Definition numeric_row (description num unit_part : str)
  : result (option row) :=
  match float_of_str num with
  | Some number => Ok (Some (mkRow description (VFloat number) unit_part))
  | None => Raise ValueError
  end.

End DecoderVocabulary.

(** ** More sample data *)

Module SampleFault.

(** A telegram with a rate line whose value is no number; the CRC-16 of
    its content is 0xF15A. *)
Definition lines : list bytes :=
  [ Sample.crlf "/XYZ5 meter"; Sample.crlf "0-0:1.0.0(230615123045S)";
    Sample.crlf "1-0:1.8.1(abc*kWh)"; Sample.crlf "!F15A" ].

Definition before_last_line : @State Decimal.pyfloat :=
  fold_left loop_iteration (removelast lines) Sample.start.

End SampleFault.

Section LoopVocabulary.

Context {PF : PyFloat}.

(** A line that decodes and holds neither marker. *)
Definition plain_line (l : bytes) : Prop :=
  forallb is_ascii l = true /\ contains (lit "/") l = false
  /\ contains (lit "!") l = false.

(** [write_csv] for one file, row after row. *)
Definition write_rows (filename : str) (rows : list (dict cell))
  (st : State) : State :=
  fold_left (fun st row => snd (write_csv filename row st)) rows st.

End LoopVocabulary.

(* ================================================================== *)
(** * Part II: lemmas and theorems *)
(* ================================================================== *)

Example crc16_check_value :
  Crc16.crc16 (lit "123456789") = 47933.
Proof. vm_compute. reflexivity. Qed.

Example hex_example : hex 47933 = lit "0xbb3d" /\ hex (-26) = lit "-0x1a".
Proof. vm_compute. split; reflexivity. Qed.

Example int16_examples :
  map (fun s => int16 (lit s))
      ["DEB0"; "deb0"; "0_12"; "0x_12"; "+0x1f"; "-1A"; "0x"; "_12"; "12_";
       "1 f"; "DEBG"]%string
  = [Ok 57008; Ok 57008; Ok 18; Ok 18; Ok 31; Ok (-26); Raise ValueError;
     Raise ValueError; Raise ValueError; Raise ValueError; Raise ValueError].
Proof. vm_compute. reflexivity. Qed.

Example findall_examples :
  findall_groups (lit "0-1:24.2.3(230615123000S)(00012.340*m3)")
  = [lit "(230615123000S)"; lit "(00012.340*m3)"]
  /\ findall_groups (lit "a((b)c)(d") = [lit "((b)"].
Proof. vm_compute. split; reflexivity. Qed.

Example split_examples :
  split [CR; LF] (lit "a" ++ [CR; LF] ++ lit "b" ++ [CR; LF; CR; LF])
  = [lit "a"; lit "b"; []; []]
  /\ split (lit "*") (lit "1.5*kWh*x") = [lit "1.5"; lit "kWh"; lit "x"].
Proof. vm_compute. split; reflexivity. Qed.

Example fromhex_examples :
  fromhex (lit "41 42") = Some (lit "AB") /\ fromhex (lit "4 1") = None
  /\ fromhex (lit "414") = None.
Proof. vm_compute. repeat split; reflexivity. Qed.

(** Fields of one digit are read where two do not fit, as [strptime]
    does. *)
Example strptime_examples :
  map (fun s => Strptime.strptime_timestamp (lit s))
      ["230615123045+0200"; "2361512345+0200"; "230229000000+0100";
       "230615123060+0100"; "230615123045+01:00:30"; "230615123045Z";
       "230615123045+0200x"]%string
  = [Ok 1686825045; Ok 1686825245; Raise ValueError; Raise ValueError;
     Ok 1686828615; Ok 1686832245; Raise ValueError].
Proof. vm_compute. reflexivity. Qed.

Example decimal_examples :
  map (fun s => option_map Decimal.to_str (Decimal.of_str (lit s)))
      ["000123.456"; "000.000"; "1.50"; "12"; "1e5"]%string
  = [Some (lit "123.456"); Some (lit "0.0"); Some (lit "1.5");
     Some (lit "12.0"); None].
Proof. vm_compute. reflexivity. Qed.

(** ** Texts *)

Lemma str_eqb_eq a : forall b, str_eqb a b = true <-> a = b.
Proof.
  induction a as [|x a IH]; intros [|y b]; simpl; split; try congruence; try easy.
  - rewrite andb_true_iff, Ascii.eqb_eq, IH. intros [-> ->]; reflexivity.
  - intros [= -> ->]. rewrite Ascii.eqb_refl. apply IH. reflexivity.
Qed.

Lemma startswith_app p : forall s, startswith p s = true <-> exists r, s = p ++ r.
Proof.
  induction p as [|x p IH]; intros s; simpl.
  - split; eauto.
  - destruct s as [|y s].
    + split; [discriminate | intros [r [=]]].
    + rewrite andb_true_iff, Ascii.eqb_eq, IH. split.
      * intros [-> [r ->]]. eauto.
      * intros [r [= -> ->]]. eauto.
Qed.

Lemma lstrip_keeps p c s : In c s -> p c = false -> In c (lstrip p s).
Proof.
  induction s as [|x s IH]; simpl; [easy|].
  intros [->|Hin] Hp.
  - rewrite Hp. now left.
  - destruct (p x); [now apply IH | now right].
Qed.

Lemma rstrip_keeps p c s : In c s -> p c = false -> In c (rstrip p s).
Proof.
  intros Hin Hp. unfold rstrip. rewrite <- in_rev.
  apply lstrip_keeps; [now rewrite <- in_rev | assumption].
Qed.

Lemma strip_keeps c s : In c s -> isspace c = false -> In c (strip s).
Proof.
  intros Hin Hp. unfold strip. apply rstrip_keeps; [|assumption].
  now apply lstrip_keeps.
Qed.

(** ** [hex] is one-to-one, so comparing [hex] texts compares numbers *)

Lemma hex_abs_inj a b : hex_abs a = hex_abs b -> a = b.
Proof.
  unfold hex_abs. intros H. apply app_inv_head in H.
  apply (f_equal string_of_list_ascii) in H.
  rewrite !string_of_list_ascii_of_string in H.
  apply (f_equal HexadecimalString.NilZero.uint_of_string) in H.
  assert (nn : forall n, N.to_hex_uint n <> Hexadecimal.Nil).
  { intros [|p]; simpl; [discriminate | apply HexadecimalPos.Unsigned.to_uint_nonnil]. }
  rewrite !HexadecimalString.NilZero.usu in H by apply nn.
  injection H as H. now apply HexadecimalN.Unsigned.to_uint_inj.
Qed.

Lemma hex_inj a b : hex a = hex b -> a = b.
Proof.
  unfold hex.
  destruct (Z.ltb_spec a 0) as [la|la], (Z.ltb_spec b 0) as [lb|lb]; intros H.
  - apply (f_equal (@tl ascii)) in H. cbn [tl] in H.
    apply hex_abs_inj in H. lia.
  - discriminate H.
  - discriminate H.
  - apply hex_abs_inj in H. lia.
Qed.

Lemma hex_eqb a b : str_eqb (hex a) (hex b) = (a =? b).
Proof.
  destruct (Z.eqb_spec a b) as [->|ne].
  - apply str_eqb_eq. reflexivity.
  - destruct (str_eqb (hex a) (hex b)) eqn:E; [|reflexivity].
    apply str_eqb_eq, hex_inj in E. contradiction.
Qed.

(** ** [int16] rejects any text that holds the end marker *)

Lemma hexdigits_bang s : forall acc p, In bang s -> hexdigits acc p s = None.
Proof.
  induction s as [|c s IH]; intros acc p; simpl; [easy|].
  intros [->|Hin].
  - reflexivity.
  - destruct (Ascii.eqb c underscore).
    + destruct p; [reflexivity | now apply IH].
    + destruct (hexval c); [now apply IH | reflexivity].
Qed.

Lemma int_digits16_bang s : In bang s -> int_digits16 s = None.
Proof.
  destruct s as [|c s]; [easy|]. intros Hin. unfold int_digits16.
  destruct (Ascii.eqb c underscore); [reflexivity | now apply hexdigits_bang].
Qed.

Lemma int_prefix16_bang s : In bang s -> In bang (int_prefix16 s).
Proof.
  destruct s as [|z [|x r]]; simpl; auto.
  destruct (Ascii.eqb z "0" && (Ascii.eqb x "x" || Ascii.eqb x "X")) eqn:E;
    [|auto].
  apply andb_true_iff in E as [Ez Ex]. apply Ascii.eqb_eq in Ez. subst z.
  intros [H|[H|H]]; [discriminate H | subst x; discriminate Ex |].
  destruct r as [|u r']; [assumption|].
  destruct (Ascii.eqb_spec u underscore) as [->|ne]; [|assumption].
  destruct H as [H|H]; [discriminate H | assumption].
Qed.

Lemma int_sign_bang s : In bang s -> In bang (snd (int_sign s)).
Proof.
  destruct s as [|c r]; simpl; auto.
  destruct (Ascii.eqb_spec c "+") as [->|np].
  - intros [H|H]; [discriminate H | assumption].
  - destruct (Ascii.eqb_spec c "-") as [->|nm]; [|auto].
    intros [H|H]; [discriminate H | assumption].
Qed.

Lemma int16_bang s : In bang s -> int16 s = Raise ValueError.
Proof.
  intros Hin. unfold int16.
  assert (H0 : In bang (rstrip c_isspace (lstrip c_isspace s))).
  { apply rstrip_keeps; [|reflexivity]. now apply lstrip_keeps. }
  apply int_sign_bang in H0.
  destruct (int_sign _) as [neg s1]. simpl in H0.
  now rewrite (int_digits16_bang _ (int_prefix16_bang _ H0)).
Qed.

(** ** The matches of [\r\n(?=!)] and the first end marker *)

Lemma finditer_no_bang s : forall k, ~ In bang s -> finditer_from k s = [].
Proof.
  induction s as [|c s IH]; intros k Hn; cbn [finditer_from]; [reflexivity|].
  destruct (startswith end_marker (c :: s)) eqn:E.
  - apply startswith_app in E as [r E]. exfalso. apply Hn.
    rewrite E. simpl. auto.
  - apply IH. intros H. apply Hn. now right.
Qed.

Lemma finditer_at_marker k suffix :
  finditer_from k (end_marker ++ suffix)
  = (k + 2)%nat :: finditer_from (k + 3) suffix.
Proof.
  change (end_marker ++ suffix) with (CR :: LF :: bang :: suffix).
  cbn [finditer_from].
  assert (E1 : startswith end_marker (CR :: LF :: bang :: suffix) = true)
    by (apply startswith_app; exists suffix; reflexivity).
  assert (E2 : startswith end_marker (LF :: bang :: suffix) = false)
    by reflexivity.
  assert (E3 : startswith end_marker (bang :: suffix) = false)
    by reflexivity.
  rewrite E1, E2, E3. do 2 f_equal. lia.
Qed.

(** What [split_at_end_marker] returns: the content ends with the marker,
    the two parts make up the telegram, and no marker starts earlier. *)
Lemma split_at_end_marker_spec t : forall content suffix,
  split_at_end_marker t = Some (content, suffix) ->
  exists pre,
    content = pre ++ end_marker /\ t = content ++ suffix /\
    (forall pre' post', t = pre' ++ end_marker ++ post' ->
       (length pre <= length pre')%nat) /\
    (forall k, finditer_from k t
               = (k + length pre + 2)%nat
                 :: finditer_from (k + length pre + 3) suffix).
Proof.
  induction t as [|c t IH]; intros content suffix; [discriminate|].
  cbn [split_at_end_marker].
  destruct (startswith end_marker (c :: t)) eqn:E.
  - apply startswith_app in E as [r E]. rewrite E.
    change (skipn 3 (end_marker ++ r)) with r.
    intros [= <- <-]. exists []. split; [reflexivity|]. split; [reflexivity|].
    split.
    + intros; simpl; lia.
    + intros k. rewrite finditer_at_marker. simpl length.
      now rewrite !Nat.add_0_r.
  - destruct (split_at_end_marker t) as [[content' suffix']|] eqn:S; [|discriminate].
    intros [= <- <-]. destruct (IH _ _ eq_refl) as (pre & -> & Ht & Hfirst & Hfind).
    exists (c :: pre). split; [reflexivity|]. split; [|split].
    + simpl. now rewrite Ht at 1.
    + intros [|c' pre'] post' Heq.
      * exfalso. assert (startswith end_marker (c :: t) = true)
          by (apply startswith_app; eauto).
        congruence.
      * injection Heq as _ Heq. specialize (Hfirst _ _ Heq). simpl. lia.
    + intros k. cbn [finditer_from]. rewrite E, Hfind. simpl length.
      do 2 f_equal; lia.
Qed.

Lemma split_at_end_marker_none t :
  split_at_end_marker t = None <->
  (forall pre post, t <> pre ++ end_marker ++ post).
Proof.
  induction t as [|c t IH]; cbn [split_at_end_marker].
  - split; [|reflexivity]. intros _ [|? ?] post; discriminate.
  - destruct (startswith end_marker (c :: t)) eqn:E.
    + split; [discriminate|]. intros H. apply startswith_app in E as [r E].
      exfalso. apply (H [] r). exact E.
    + destruct (split_at_end_marker t) as [[content suffix]|].
      * split; [discriminate|]. intros H.
        assert (N : None = @None (bytes * bytes)) by reflexivity.
        destruct IH as [_ IH].
        assert (X : @Some (bytes * bytes) (content, suffix) = None).
        { apply IH. intros pre post ->. apply (H (c :: pre) post). reflexivity. }
        discriminate X.
      * split; [|reflexivity]. intros _ [|c' pre] post Heq.
        -- assert (startswith end_marker (c :: t) = true)
             by (apply startswith_app; eauto).
           congruence.
        -- injection Heq as _ Heq. destruct IH as [IH _].
           exact (IH eq_refl pre post Heq).
Qed.

Lemma finditer_none t :
  split_at_end_marker t = None -> forall k, finditer_from k t = [].
Proof.
  induction t as [|c t IH]; cbn [split_at_end_marker finditer_from]; [reflexivity|].
  destruct (startswith end_marker (c :: t)); [discriminate|].
  destruct (split_at_end_marker t) as [[? ?]|]; [discriminate|].
  intros _ k. now apply IH.
Qed.

Lemma decode_ascii_ok b text : decode_ascii b = Ok text -> text = b.
Proof.
  unfold decode_ascii. destruct (forallb is_ascii b); congruence.
Qed.

Lemma firstn_skipn_content pre suffix :
  firstn (length pre + 2 + 1) ((pre ++ end_marker) ++ suffix) = pre ++ end_marker
  /\ skipn (length pre + 2 + 1) ((pre ++ end_marker) ++ suffix) = suffix.
Proof.
  assert (L : (length pre + 2 + 1 = length (pre ++ end_marker))%nat).
  { rewrite length_app. simpl. lia. }
  rewrite L. split.
  - rewrite firstn_app, Nat.sub_diag, firstn_all. simpl. apply app_nil_r.
  - rewrite skipn_app, Nat.sub_diag, skipn_all. reflexivity.
Qed.

(** [checkcrc] on a telegram with an end marker. *)
Lemma checkcrc_split t content suffix :
  split_at_end_marker t = Some (content, suffix) ->
  checkcrc t =
    (text <- decode_ascii suffix ;;
     given <- int16 (strip text) ;;
     Ok (given =? Crc16.crc16 content)).
Proof.
  intros S. destruct (split_at_end_marker_spec _ _ _ S)
    as (pre & -> & -> & _ & Hfind).
  unfold checkcrc, finditer. rewrite Hfind. cbn [checkcrc_loop].
  unfold checkcrc_bind. cbn [Nat.add].
  destruct (firstn_skipn_content pre suffix) as [-> ->].
  destruct (decode_ascii suffix) as [text|e] eqn:D; [|reflexivity].
  cbn [bind]. apply decode_ascii_ok in D. subst text.
  destruct (int16 (strip suffix)) as [given|e] eqn:I; [|reflexivity].
  cbn [bind].
  rewrite finditer_no_bang.
  - cbn [checkcrc_loop bind]. rewrite hex_eqb.
    destruct (given =? Crc16.crc16 (pre ++ end_marker)); reflexivity.
  - intros Hin. apply strip_keeps in Hin; [|reflexivity].
    rewrite (int16_bang _ Hin) in I. discriminate I.
Qed.

Lemma checkcrc_no_marker t :
  split_at_end_marker t = None ->
  checkcrc t = Raise (UnboundLocalError (lit "p1contents")).
Proof.
  intros S. unfold checkcrc, finditer. now rewrite finditer_none.
Qed.

(** With an end marker, [checkcrc] accepts exactly when the text behind
    the first marker reads as the CRC of the content. *)
Lemma checkcrc_accepts_iff t content suffix :
  split_at_end_marker t = Some (content, suffix) ->
  checkcrc t = Ok true <-> checksum_number suffix = Ok (Crc16.crc16 content).
Proof.
  intros S. rewrite (checkcrc_split _ _ _ S). unfold checksum_number.
  destruct (decode_ascii suffix) as [text|e]; cbn [bind];
    [|split; discriminate].
  destruct (int16 (strip text)) as [given|e]; cbn [bind];
    [|split; discriminate].
  split; intros [= H]; f_equal.
  - now apply Z.eqb_eq.
  - subst given. apply Z.eqb_refl.
Qed.

(** ** Dictionaries *)

Lemma str_eqb_refl a : str_eqb a a = true.
Proof. now apply str_eqb_eq. Qed.

Lemma str_eqb_neq a b : a <> b -> str_eqb a b = false.
Proof.
  intros ne. destruct (str_eqb a b) eqn:E; [|reflexivity].
  apply str_eqb_eq in E. contradiction.
Qed.

Lemma dict_get_In {V} (d : dict V) k v : dict_get d k = Some v -> In (k, v) d.
Proof.
  induction d as [|[k' v'] d IH]; simpl; [discriminate|].
  destruct (str_eqb k' k) eqn:E.
  - apply str_eqb_eq in E. subst k'. intros [= ->]. now left.
  - intros H. right. now apply IH.
Qed.

Lemma dict_get_set_same {V} (d : dict V) k v :
  dict_get (dict_set d k v) k = Some v.
Proof.
  induction d as [|[k' v'] d IH]; simpl.
  - now rewrite str_eqb_refl.
  - destruct (str_eqb k' k) eqn:E; simpl; rewrite E; [reflexivity | exact IH].
Qed.

Lemma dict_get_set_other {V} (d : dict V) k k' v :
  k <> k' -> dict_get (dict_set d k v) k' = dict_get d k'.
Proof.
  intros ne. induction d as [|[k0 v0] d IH]; simpl.
  - now rewrite str_eqb_neq.
  - destruct (str_eqb k0 k) eqn:E; simpl.
    + apply str_eqb_eq in E. subst k0. now rewrite str_eqb_neq.
    + destruct (str_eqb k0 k'); [reflexivity | exact IH].
Qed.

Lemma dict_set_keys {V} (d : dict V) k v :
  map fst (dict_set d k v)
  = match dict_get d k with
    | Some _ => map fst d
    | None => map fst d ++ [k]
    end.
Proof.
  induction d as [|[k0 v0] d IH]; simpl; [reflexivity|].
  destruct (str_eqb k0 k) eqn:E; simpl; [reflexivity|].
  rewrite IH. now destruct (dict_get d k).
Qed.

Lemma dict_get_None_keys {V} (d : dict V) k :
  dict_get d k = None -> ~ In k (map fst d).
Proof.
  induction d as [|[k0 v0] d IH]; simpl; [tauto|].
  destruct (str_eqb k0 k) eqn:E; [discriminate|].
  intros H [->|Hin]; [now rewrite str_eqb_refl in E | now apply IH].
Qed.

(** Assignments keep the keys of a dictionary distinct. *)
Lemma dict_set_NoDup {V} (d : dict V) k v :
  NoDup (map fst d) -> NoDup (map fst (dict_set d k v)).
Proof.
  intros nd. rewrite dict_set_keys. destruct (dict_get d k) eqn:G; [assumption|].
  apply NoDup_app; [assumption | repeat constructor; easy |].
  intros x Hx [<-|[]]. exact (dict_get_None_keys _ _ G Hx).
Qed.

(** A property of the keys checked on the whole registry holds of every
    code that is looked up with success. *)
Lemma registry_forall (p : str -> bool) obis description :
  forallb (fun kv => p (fst kv)) obiscodes = true ->
  dict_get obiscodes obis = Some description ->
  p obis = true.
Proof.
  intros all G. apply dict_get_In in G.
  rewrite forallb_forall in all. exact (all _ G).
Qed.

(** ** Splitting on one character *)

Lemma split_no_sep c s : forall cur,
  ~ In c s -> split_go [c] 0 cur s = [rev cur ++ s].
Proof.
  induction s as [|x s IH]; intros cur Hn; cbn [split_go].
  - now rewrite app_nil_r.
  - cbn [startswith].
    destruct (Ascii.eqb_spec c x) as [->|ne].
    + exfalso. apply Hn. now left.
    + cbn [andb]. rewrite IH by (intros H; apply Hn; now right).
      cbn [rev]. now rewrite <- app_assoc.
Qed.

Lemma split_at_sep c a : forall cur b,
  ~ In c a ->
  split_go [c] 0 cur (a ++ c :: b) = (rev cur ++ a) :: split_go [c] 0 [] b.
Proof.
  induction a as [|x a IH]; intros cur b Hn; cbn [app split_go startswith].
  - rewrite Ascii.eqb_refl. cbn [andb length Nat.sub]. now rewrite app_nil_r.
  - destruct (Ascii.eqb_spec c x) as [->|ne].
    + exfalso. apply Hn. now left.
    + cbn [andb]. rewrite IH by (intros H; apply Hn; now right).
      cbn [rev]. now rewrite <- app_assoc.
Qed.

Lemma split_one c s : ~ In c s -> split [c] s = [s].
Proof. intros H. unfold split. now rewrite split_no_sep. Qed.

Lemma split_two c a b :
  ~ In c a -> ~ In c b -> split [c] (a ++ c :: b) = [a; b].
Proof.
  intros Ha Hb. unfold split. rewrite split_at_sep by assumption.
  now rewrite split_no_sep.
Qed.

(** ** The line decoder *)

Lemma registry_has_no_serial_code obis description :
  dict_get obiscodes obis = Some description ->
  contains (lit "96.1.1") obis = false.
Proof.
  intros G.
  pose proof (registry_forall
    (fun k => negb (contains (lit "96.1.1") k)) obis description
    eq_refl G) as H.
  now apply negb_true_iff in H.
Qed.

Lemma registry_timestamp_marker obis description :
  dict_get obiscodes obis = Some description ->
  contains (lit "1.0.0") obis = str_eqb obis timestamp_code.
Proof.
  intros G.
  pose proof (registry_forall
    (fun k => Bool.eqb (contains (lit "1.0.0") k) (str_eqb k timestamp_code))
    obis description eq_refl G) as H.
  now apply Bool.eqb_prop in H.
Qed.

Lemma registry_timestamp_desc obis description :
  dict_get obiscodes obis = Some description ->
  str_eqb description (lit "Timestamp") = str_eqb obis timestamp_code.
Proof.
  intros G. apply dict_get_In in G.
  assert (all : forallb
    (fun kv => Bool.eqb (str_eqb (snd kv) (lit "Timestamp"))
                        (str_eqb (fst kv) timestamp_code)) obiscodes = true)
    by reflexivity.
  rewrite forallb_forall in all. apply Bool.eqb_prop. exact (all _ G).
Qed.

Section Decoder.

Context {PF : PyFloat}.

(** The row of a registered code that is not the time stamp. *)
Lemma parsetelegramline_number p1line description group :
  dict_get obiscodes (obis_of p1line) = Some description ->
  captured_group (findall_groups p1line) = Ok group ->
  obis_of p1line <> timestamp_code ->
  parsetelegramline p1line =
    match float_of_str (hd [] (split [star] group)) with
    | Some number =>
        Ok (Some (mkRow description (VFloat number)
                    (nth 1 (split [star] group) [])))
    | None => Raise ValueError
    end.
Proof.
  intros G C ne. unfold parsetelegramline, parsetelegramline_in.
  rewrite G, C. cbn [bind].
  rewrite (registry_has_no_serial_code _ _ G).
  rewrite (registry_timestamp_marker _ _ G), (str_eqb_neq _ _ ne).
  cbn [negb]. change (lit "*") with [star].
  destruct (float_of_str (hd [] (split [star] group))); cbn [of_option bind];
    [|reflexivity].
  do 3 f_equal.
  destruct (split [star] group) as [|a [|b r]]; reflexivity.
Qed.

(** The row of the time stamp code. *)
Lemma parsetelegramline_timestamp p1line group :
  obis_of p1line = timestamp_code ->
  captured_group (findall_groups p1line) = Ok group ->
  parsetelegramline p1line =
    Ok (Some (mkRow (lit "Timestamp") (VStr group) [])).
Proof.
  intros E C. unfold parsetelegramline, parsetelegramline_in.
  rewrite E, C. reflexivity.
Qed.

(** A row always carries the description the registry gives the code of
    its line; a time stamp row holds text, any other row a number. *)
Lemma parsetelegramline_row p1line r :
  parsetelegramline p1line = Ok (Some r) ->
  dict_get obiscodes (obis_of p1line) = Some (desc r) /\
  (if str_eqb (desc r) (lit "Timestamp")
   then exists s, val r = VStr s
   else exists f, val r = VFloat f).
Proof.
  unfold parsetelegramline, parsetelegramline_in.
  destruct (dict_get obiscodes (obis_of p1line)) as [description|] eqn:G;
    [|discriminate].
  destruct (captured_group _) as [group|e]; [|discriminate]. cbn [bind].
  rewrite (registry_has_no_serial_code _ _ G).
  rewrite (registry_timestamp_marker _ _ G).
  rewrite <- (registry_timestamp_desc _ _ G).
  destruct (str_eqb description (lit "Timestamp")) eqn:T; cbn [negb].
  - intros [= <-]. cbn [desc val]. rewrite T. eauto.
  - destruct (float_of_str _) as [number|]; [|discriminate].
    cbn [of_option bind]. intros [= <-]. cbn [desc val]. rewrite T. eauto.
Qed.

Lemma parsetelegramline_unregistered codes p1line :
  dict_get codes (obis_of p1line) = None ->
  parsetelegramline_in codes p1line = Ok None.
Proof.
  intros G. unfold parsetelegramline_in. now rewrite G.
Qed.

(** ** Folding the lines of a telegram into the record *)

Lemma parse_lines_app l1 : forall l2 output,
  parse_lines (l1 ++ l2) output =
    (output1 <- parse_lines l1 output ;; parse_lines l2 output1).
Proof.
  induction l1 as [|l l1 IH]; intros l2 output; cbn [app parse_lines bind];
    [reflexivity|].
  destruct (decode_ascii l) as [text|e]; [|reflexivity]. cbn [bind].
  destruct (parsetelegramline text) as [[r|]|e]; cbn [bind]; auto.
Qed.

Lemma parse_lines_keeps key lines : forall output output',
  Forall (no_row_for key) lines ->
  parse_lines lines output = Ok output' ->
  dict_get output' key = dict_get output key.
Proof.
  induction lines as [|l lines IH]; intros output output' F;
    cbn [parse_lines].
  - now intros [= ->].
  - inversion F as [|? ? Hl Hrest]; subst.
    destruct (decode_ascii l) as [text|e] eqn:D; [|discriminate].
    cbn [bind].
    destruct (parsetelegramline text) as [[r|]|e] eqn:P; cbn [bind];
      [| |discriminate].
    + intros H. rewrite (IH _ _ Hrest H).
      apply dict_get_set_other. exact (Hl _ _ D P).
    + intros H. exact (IH _ _ Hrest H).
Qed.

Lemma parse_lines_NoDup lines : forall output output',
  NoDup (map fst output) ->
  parse_lines lines output = Ok output' ->
  NoDup (map fst output').
Proof.
  induction lines as [|l lines IH]; intros output output' nd;
    cbn [parse_lines].
  - now intros [= <-].
  - destruct (decode_ascii l) as [text|e]; [|discriminate]. cbn [bind].
    destruct (parsetelegramline text) as [[r|]|e]; cbn [bind];
      [| |discriminate].
    + apply IH. now apply dict_set_NoDup.
    + now apply IH.
Qed.

Lemma parse_lines_well_typed lines : forall output output',
  well_typed output ->
  parse_lines lines output = Ok output' ->
  well_typed output'.
Proof.
  induction lines as [|l lines IH]; intros output output' wt;
    cbn [parse_lines].
  - now intros [= <-].
  - destruct (decode_ascii l) as [text|e]; [|discriminate]. cbn [bind].
    destruct (parsetelegramline text) as [[r|]|e] eqn:P; cbn [bind];
      [| |discriminate].
    + apply IH. intros k v.
      destruct (str_eqb (desc r) k) eqn:E.
      * apply str_eqb_eq in E. subst k. rewrite dict_get_set_same.
        intros [= <-]. exact (proj2 (parsetelegramline_row _ _ P)).
      * rewrite dict_get_set_other; [apply wt|].
        intros Hk. rewrite Hk, str_eqb_refl in E. discriminate E.
    + now apply IH.
Qed.

Lemma well_typed_empty : well_typed [].
Proof. intros k v; discriminate. Qed.

End Decoder.

(** ** Matching in front of a character the expression cannot take *)

Module ReFacts.

Import Re.

Lemma flat_map_map {A B C} (f : B -> list C) (g : A -> B) l :
  flat_map f (map g l) = flat_map (fun x => f (g x)) l.
Proof.
  induction l as [|x l IH]; simpl; [reflexivity | now rewrite IH].
Qed.

Lemma map_flat_map {A B C} (f : A -> list B) (g : B -> C) l :
  map g (flat_map f l) = flat_map (fun x => map g (f x)) l.
Proof.
  induction l as [|x l IH]; simpl; [reflexivity|].
  now rewrite map_app, IH.
Qed.

Lemma rmatch_avoid P e : avoids P e ->
  forall s c u, P c = true ->
    rmatch e (s ++ c :: u) = map (extend (c :: u)) (rmatch e s).
Proof.
  induction e as [p| |a IHa b IHb|a IHa b IHb]; cbn [avoids rmatch].
  - intros Hp [|x s] c u Pc; cbn [app].
    + now rewrite (Hp c Pc).
    + now destruct (p x).
  - reflexivity.
  - intros [Ha Hb] s c u Pc. rewrite (IHa Ha _ _ _ Pc).
    rewrite flat_map_map, map_flat_map. apply flat_map_ext. intros [m1 r1].
    cbn [extend fst snd]. rewrite (IHb Hb _ _ _ Pc), !map_map.
    apply map_ext. now intros [m2 r2].
  - intros [Ha Hb] s c u Pc.
    now rewrite (IHa Ha _ _ _ Pc), (IHb Hb _ _ _ Pc), map_app.
Qed.

Lemma match_groups_avoid P es : Forall (avoids P) es ->
  forall s c u, P c = true ->
    match_groups es (s ++ c :: u) = map (extend (c :: u)) (match_groups es s).
Proof.
  induction es as [|e es IH]; intros F s c u Pc; cbn [match_groups].
  - reflexivity.
  - inversion F as [|? ? He Hes]; subst.
    rewrite (rmatch_avoid _ _ He _ _ _ Pc).
    rewrite flat_map_map, map_flat_map. apply flat_map_ext. intros [m1 r1].
    cbn [extend fst snd]. rewrite (IH Hes _ _ _ Pc), !map_map.
    apply map_ext. now intros [m2 r2].
Qed.

Lemma match_groups_last es e : forall s,
  match_groups (es ++ [e]) s =
    flat_map
      (fun m1 => map (fun m2 => (fst m1 ++ [fst m2], snd m2))
                     (rmatch e (snd m1)))
      (match_groups es s).
Proof.
  induction es as [|e0 es IH]; intros s; cbn [app match_groups].
  - cbn [flat_map fst snd app]. rewrite app_nil_r.
    generalize (rmatch e s). intros l.
    induction l as [|m l IHl]; [reflexivity|].
    cbn [flat_map map app fst snd]. now f_equal.
  - induction (rmatch e0 s) as [|m l IHl]; cbn [flat_map]; [reflexivity|].
    rewrite flat_map_app, IHl. f_equal.
    rewrite IH, flat_map_map, map_flat_map. apply flat_map_ext.
    intros m1. rewrite map_map. reflexivity.
Qed.

End ReFacts.

(** ** [strptime] on a text that ends in a numeric offset *)

Module StrptimeFacts.

Import Re ReFacts Strptime.

Lemma format_regex_split : format_regex = date_regex ++ [re_z].
Proof. reflexivity. Qed.

Ltac avoid_plus :=
  repeat (cbn [avoids]; split); try exact I;
  let c := fresh "c" in let Hc := fresh "Hc" in
  intros c Hc; apply Ascii.eqb_eq in Hc; subst c; reflexivity.

Lemma date_regex_avoids_plus : Forall (avoids is_plus) date_regex.
Proof.
  unfold date_regex, re_y, re_m, re_d, re_H, re_M, re_S, between, digit,
    range, char.
  repeat constructor; avoid_plus.
Qed.

Lemma z_tail_avoids_plus : avoids is_plus re_z_tail.
Proof.
  unfold re_z_tail, digits_1_6, Opt, between, digit, range, char.
  avoid_plus.
Qed.

(** [%z] on a text that is not empty: a sign and the tail, or [Z]. *)
Lemma rmatch_z_cons c x :
  rmatch re_z (c :: x) =
    (if is_sign c
     then map (fun m => (c :: fst m, snd m)) (rmatch re_z_tail x)
     else [])
    ++ (if Ascii.eqb "Z"%char c then [([c], x)] else []).
Proof.
  unfold re_z, char. cbn [rmatch]. f_equal.
  destruct (is_sign c); cbn [flat_map fst snd app]; [|reflexivity].
  now rewrite app_nil_r.
Qed.

Lemma rmatch_z_before_plus r u :
  r <> [] ->
  rmatch re_z (r ++ plus :: u) = map (extend (plus :: u)) (rmatch re_z r).
Proof.
  destruct r as [|c x]; [congruence|]. intros _. cbn [app].
  rewrite !rmatch_z_cons, map_app. f_equal.
  - destruct (is_sign c); [|reflexivity].
    rewrite (rmatch_avoid _ _ z_tail_avoids_plus) by reflexivity.
    rewrite !map_map. apply map_ext. now intros [m r].
  - now destruct (Ascii.eqb "Z" c).
Qed.

Lemma match_groups_offset d off :
  rmatch re_z (plus :: off) = [(plus :: off, [])] ->
  match_groups format_regex (d ++ plus :: off)
  = flat_map (with_offset off) (match_groups date_regex d).
Proof.
  intros Hoff. rewrite format_regex_split, match_groups_last.
  rewrite (match_groups_avoid _ _ date_regex_avoids_plus) by reflexivity.
  rewrite flat_map_map. apply flat_map_ext. intros [g r].
  unfold with_offset. cbn [extend fst snd]. destruct r as [|c x].
  - cbn [app]. now rewrite Hoff.
  - rewrite rmatch_z_before_plus by discriminate.
    rewrite map_map. apply map_ext. now intros [m r].
Qed.

Lemma timestamp_at_offsets gy gm gd gH gM gS :
  hour_apart (timestamp_at gy gm gd gH gM gS 7200000000)
             (timestamp_at gy gm gd gH gM gS 3600000000).
Proof.
  unfold timestamp_at.
  set (year := if int10 gy <=? 68 then _ else _).
  set (local := _ + int10 gS).
  change (Z.abs 7200000000 <? 86400 * 1000000) with true.
  change (Z.abs 3600000000 <? 86400 * 1000000) with true.
  destruct (_ && _ && true); [right | left; now split].
  exists (local - 7200). split; f_equal.
  - replace (local * 1000000 - 7200000000) with ((local - 7200) * 1000000)
      by lia.
    now apply Z.quot_mul.
  - replace (local * 1000000 - 3600000000)
      with ((local - 7200 + 3600) * 1000000) by lia.
    now apply Z.quot_mul.
Qed.

Lemma timestamp_of_groups_offsets g :
  hour_apart (timestamp_of_groups (g ++ [plus :: summer]))
             (timestamp_of_groups (g ++ [plus :: winter])).
Proof.
  destruct g as [|a [|b [|c [|d [|e [|f [|h g]]]]]]];
    try (left; split; reflexivity).
  - cbn [app timestamp_of_groups].
    change (gmtoff_us (plus :: summer)) with (Some 7200000000).
    change (gmtoff_us (plus :: winter)) with (Some 3600000000).
    apply timestamp_at_offsets.
  - left. cbn [app timestamp_of_groups]. now destruct g.
Qed.

Lemma first_match_offsets l :
  hour_apart (first_match (flat_map (with_offset summer) l))
             (first_match (flat_map (with_offset winter) l)).
Proof.
  induction l as [|[g r] l IH]; cbn [flat_map].
  - left. now split.
  - unfold with_offset at 1 3. cbn [fst snd]. destruct r as [|c x].
    + cbn [app first_match]. apply timestamp_of_groups_offsets.
    + destruct (rmatch re_z (c :: x)) as [|[m r] ms]; cbn [map app].
      * exact IH.
      * left. cbn [first_match fst snd].
        destruct r; cbn [app]; now split.
Qed.

(** The same digits read with [+0200] and with [+0100]. *)
Lemma strptime_summer_winter d :
  hour_apart (strptime_timestamp (d ++ plus :: summer))
             (strptime_timestamp (d ++ plus :: winter)).
Proof.
  unfold strptime_timestamp.
  rewrite !match_groups_offset by reflexivity.
  apply first_match_offsets.
Qed.

End StrptimeFacts.

(** ** [to_unixtime] *)

Lemma item_last_app d c : item_last (d ++ [c]) = Ok c.
Proof. unfold item_last. now rewrite rev_app_distr. Qed.

Lemma to_unixtime_summer d :
  to_unixtime (d ++ ["S"%char]) = Strptime.strptime_timestamp (d ++ lit "+0200").
Proof.
  unfold to_unixtime. rewrite item_last_app, removelast_last. reflexivity.
Qed.

Lemma to_unixtime_winter d :
  to_unixtime (d ++ ["W"%char]) = Strptime.strptime_timestamp (d ++ lit "+0100").
Proof.
  unfold to_unixtime. rewrite item_last_app, removelast_last. reflexivity.
Qed.

Lemma to_unixtime_other_flag d c :
  c <> "W"%char -> c <> "S"%char ->
  to_unixtime (d ++ [c]) = Raise (NameError (lit "lastChar")).
Proof.
  intros nw ns. unfold to_unixtime. rewrite item_last_app. cbn [bind].
  destruct (Ascii.eqb_spec c "W"); [contradiction|].
  destruct (Ascii.eqb_spec c "S"); [contradiction|]. reflexivity.
Qed.

Lemma to_unixtime_hour_apart d t :
  to_unixtime (d ++ ["S"%char]) = Ok t ->
  to_unixtime (d ++ ["W"%char]) = Ok (t + 3600).
Proof.
  rewrite to_unixtime_summer, to_unixtime_winter.
  destruct (StrptimeFacts.strptime_summer_winter d) as [[Hs _]|[t' [Hs Hw]]].
  - change (lit "+0200") with (Strptime.plus :: Strptime.summer).
    rewrite Hs. discriminate.
  - change (lit "+0200") with (Strptime.plus :: Strptime.summer).
    change (lit "+0100") with (Strptime.plus :: Strptime.winter).
    rewrite Hs, Hw. now intros [= ->].
Qed.

(** ** The acquisition loop *)

Section Loop.

Context {PF : PyFloat}.

(** [process_telegram], statement by statement. *)
Lemma process_telegram_run telegram st output :
  parse_lines (split CRLF telegram) [] = Ok output ->
  process_telegram telegram st =
    match dict_get output (lit "Timestamp") with
    | None => (Raise (KeyError (lit "Timestamp")), st)
    | Some (VFloat _) => (Raise TypeError, st)
    | Some (VStr p1time) =>
        let date := firstn 6 p1time in
        if can_append st (full_name date) then
          let st1 :=
            set_files
              (append_row (full_name date) (full_row output) (files st))
              st in
          match to_unixtime p1time with
          | Raise e => (Raise e, st1)
          | Ok timestamp =>
              match total output rate1_consumption rate2_consumption with
              | Raise e => (Raise e, st1)
              | Ok consumption =>
                  match total output rate1_production rate2_production with
                  | Raise e => (Raise e, st1)
                  | Ok production =>
                      if can_append st (summed_name date) then
                        (Ok tt,
                         set_latest_data
                           (snapshot_json timestamp consumption production)
                           (set_files
                              (append_row (summed_name date)
                                 (summed_row timestamp consumption
                                    production)
                                 (files st1)) st1))
                      else (Raise OSError, st1)
                  end
              end
          end
        else (Raise OSError, st)
    end.
Proof.
  intros P. unfold process_telegram, bindM, lift, modify, dict_item, write_csv.
  rewrite P.
  destruct (dict_get output (lit "Timestamp")) as [[p1time|f]|];
    cbn [of_option bind as_str]; try reflexivity.
  cbv zeta. destruct (can_append st _); [|reflexivity].
  destruct (to_unixtime p1time); [|reflexivity].
  destruct (total _ _ _); [|reflexivity].
  destruct (total _ _ _); [|reflexivity].
  cbn [can_append set_files]. now destruct (can_append st _).
Qed.

Lemma process_telegram_parse_error telegram st e :
  parse_lines (split CRLF telegram) [] = Raise e ->
  process_telegram telegram st = (Raise e, st).
Proof.
  intros P. unfold process_telegram, bindM, lift. now rewrite P.
Qed.

(** Processing a telegram touches neither the buffer nor the port. *)
Lemma process_telegram_frame telegram st :
  p1telegram (snd (process_telegram telegram st)) = p1telegram st /\
  port_open (snd (process_telegram telegram st)) = port_open st.
Proof.
  destruct (parse_lines (split CRLF telegram) []) as [output|e] eqn:P.
  - rewrite (process_telegram_run _ _ _ P).
    destruct (dict_get output _) as [[p1time|f]|]; try (split; reflexivity).
    cbv zeta. destruct (can_append st _); [|split; reflexivity].
    destruct (to_unixtime p1time); [|split; reflexivity].
    destruct (total _ _ _); [|split; reflexivity].
    destruct (total _ _ _); [|split; reflexivity].
    destruct (can_append st _); split; reflexivity.
  - rewrite (process_telegram_parse_error _ _ _ P). split; reflexivity.
Qed.

Lemma validate_and_process_eq telegram st :
  validate_and_process telegram st =
    match checkcrc telegram with
    | Ok true => process_telegram telegram st
    | Ok false => (Ok tt, st)
    | Raise e => (Raise e, st)
    end.
Proof.
  unfold validate_and_process, bindM, lift, ret.
  destruct (checkcrc telegram) as [[|]|e]; reflexivity.
Qed.

Lemma try_body_eq p1line st :
  try_body p1line st =
    if forallb is_ascii p1line then
      let st1 := set_p1telegram (framed st p1line) st in
      if contains (lit "!") p1line
      then validate_and_process (framed st p1line) st1
      else (Ok tt, st1)
    else (Raise UnicodeDecodeError, st).
Proof.
  unfold try_body, bindM, lift, modify, ret, decode_ascii, framed.
  destruct (forallb is_ascii p1line); [|reflexivity].
  destruct (contains (lit "/") p1line), (contains (lit "!") p1line);
    reflexivity.
Qed.

(** An iteration changes the files or [latest_data] only when its line
    decodes, holds the end marker, and [checkcrc] returns [True] for the
    buffer. *)
Lemma loop_iteration_effects st p1line :
  let st' := loop_iteration st p1line in
  files st' <> files st \/ latest_data st' <> latest_data st ->
  contains (lit "!") p1line = true /\
  p1telegram st' = framed st p1line /\
  checkcrc (p1telegram st') = Ok true.
Proof.
  unfold loop_iteration. rewrite try_body_eq.
  destruct (forallb is_ascii p1line); cbv zeta;
    [|cbn; intros [H|H]; now elim H].
  destruct (contains (lit "!") p1line);
    [|cbn; intros [H|H]; now elim H].
  rewrite validate_and_process_eq.
  destruct (checkcrc (framed st p1line)) as [[|]|e] eqn:C;
    try (cbn; intros [H|H]; now elim H).
  intros _. split; [reflexivity|].
  pose proof (process_telegram_frame (framed st p1line)
                (set_p1telegram (framed st p1line) st)) as [Hb _].
  destruct (process_telegram _ _) as [[u|e] st'']; cbn [snd] in Hb;
    cbn [close_port p1telegram]; rewrite Hb; cbn [set_p1telegram p1telegram];
    now split.
Qed.

(** An iteration whose buffer [checkcrc] does not accept writes and
    publishes nothing. *)
Lemma loop_iteration_no_effect st p1line :
  checkcrc (framed st p1line) <> Ok true ->
  files (loop_iteration st p1line) = files st /\
  latest_data (loop_iteration st p1line) = latest_data st.
Proof.
  intros R. unfold loop_iteration. rewrite try_body_eq.
  destruct (forallb is_ascii p1line); cbv zeta; [|now split].
  destruct (contains (lit "!") p1line); [|now split].
  rewrite validate_and_process_eq.
  destruct (checkcrc (framed st p1line)) as [[|]|e];
    [congruence | |]; now split.
Qed.

(** A run of the loop in which [checkcrc] accepts no buffer writes and
    publishes nothing. *)
Lemma acquisition_loop_no_effect input : forall st,
  (forall before p1line after,
      input = before ++ p1line :: after ->
      checkcrc (framed (acquisition_loop st before) p1line) <> Ok true) ->
  files (acquisition_loop st input) = files st /\
  latest_data (acquisition_loop st input) = latest_data st.
Proof.
  induction input as [|l input IH]; intros st H; cbn [acquisition_loop];
    [now split|].
  destruct (port_open st) eqn:O; [|now split].
  destruct (loop_iteration_no_effect st l (H [] l input eq_refl)) as [F L].
  rewrite <- F, <- L. apply IH. intros before p1line after ->.
  specialize (H (l :: before) p1line after eq_refl).
  cbn [acquisition_loop] in H. now rewrite O in H.
Qed.

End Loop.

(** ** Checksum texts made of hexadecimal digits *)

(** What a hexadecimal digit is not. *)
Lemma hexdigit_class c :
  is_hexdigit c = true ->
  isspace c = false /\ c_isspace c = false /\ is_ascii c = true /\
  Ascii.eqb c underscore = false /\ Ascii.eqb c "+" = false /\
  Ascii.eqb c "-" = false /\ Ascii.eqb c "x" = false /\
  Ascii.eqb c "X" = false.
Proof.
  destruct c as [[|] [|] [|] [|] [|] [|] [|] [|]];
    try discriminate; intros _; repeat split; reflexivity.
Qed.

Lemma isspace_ascii c : isspace c = true -> is_ascii c = true.
Proof.
  destruct c as [[|] [|] [|] [|] [|] [|] [|] [|]];
    try discriminate; reflexivity.
Qed.

Lemma lstrip_none p s : (forall c, In c s -> p c = false) -> lstrip p s = s.
Proof.
  destruct s as [|c s]; [reflexivity|]. intros H. cbn [lstrip].
  now rewrite (H c (or_introl eq_refl)).
Qed.

Lemma lstrip_app_all p a b : forallb p a = true -> lstrip p (a ++ b) = lstrip p b.
Proof.
  induction a as [|c a IH]; cbn [forallb app lstrip]; [reflexivity|].
  intros H. apply andb_true_iff in H as [Hc Ha]. rewrite Hc. now apply IH.
Qed.

Lemma strip_digits p ds tail :
  ds <> [] ->
  (forall c, In c ds -> p c = false) ->
  forallb p tail = true ->
  rstrip p (lstrip p (ds ++ tail)) = ds.
Proof.
  intros ne Hd Ht. destruct ds as [|c ds]; [congruence|].
  cbn [app lstrip]. rewrite (Hd c (or_introl eq_refl)).
  change (c :: ds ++ tail) with ((c :: ds) ++ tail).
  unfold rstrip. rewrite rev_app_distr, lstrip_app_all.
  - rewrite lstrip_none; [apply rev_involutive|].
    intros x Hx. apply Hd. now apply in_rev.
  - rewrite forallb_forall in *. intros x Hx. apply Ht. now apply in_rev.
Qed.

Lemma hexdigits_value ds : forall acc,
  forallb is_hexdigit ds = true ->
  hexdigits acc false ds
  = Some (fold_left (fun a c => 16 * a + digit_value c) ds acc).
Proof.
  induction ds as [|c ds IH]; intros acc; cbn [forallb hexdigits fold_left];
    [reflexivity|].
  intros H. apply andb_true_iff in H as [Hc Hds].
  destruct (hexdigit_class c Hc) as (_ & _ & _ & -> & _).
  unfold digit_value at 2. unfold is_hexdigit in Hc.
  destruct (hexval c); [now apply IH | discriminate].
Qed.

(** [int] of a run of hexadecimal digits is the number they denote. *)
Lemma int16_hex_digits ds :
  ds <> [] -> forallb is_hexdigit ds = true -> int16 ds = Ok (hex_value ds).
Proof.
  intros ne H. unfold int16.
  assert (Hin : forall c, In c ds -> is_hexdigit c = true)
    by (now apply forallb_forall).
  replace (rstrip c_isspace (lstrip c_isspace ds)) with ds.
  2:{ symmetry. rewrite <- (app_nil_r ds) at 1.
      apply strip_digits; [assumption | | reflexivity].
      intros c Hc. now destruct (hexdigit_class c (Hin c Hc)) as (_ & -> & _). }
  destruct ds as [|c ds]; [congruence|].
  destruct (hexdigit_class c (Hin c (or_introl eq_refl)))
    as (_ & _ & _ & Hu & Hp & Hm & _).
  cbn [int_sign]. rewrite Hp, Hm.
  assert (Hpre : int_prefix16 (c :: ds) = c :: ds).
  { destruct ds as [|x r]; [reflexivity|]. cbn [int_prefix16].
    destruct (hexdigit_class x (Hin x (or_intror (or_introl eq_refl))))
      as (_ & _ & _ & _ & _ & _ & -> & ->).
    now rewrite andb_false_r. }
  rewrite Hpre. cbn [int_digits16]. rewrite Hu.
  now rewrite hexdigits_value.
Qed.

Lemma fold_hex_app a : forall b acc,
  fold_left (fun x c => 16 * x + digit_value c) (a ++ b) acc
  = fold_left (fun x c => 16 * x + digit_value c) b
      (fold_left (fun x c => 16 * x + digit_value c) a acc).
Proof. intros. apply fold_left_app. Qed.

Lemma fold_hex_shift b : forall acc,
  fold_left (fun x c => 16 * x + digit_value c) b acc
  = acc * 16 ^ Z.of_nat (length b) + hex_value b.
Proof.
  unfold hex_value.
  induction b as [|c b IH]; intros acc; cbn [fold_left length].
  - cbn. lia.
  - rewrite IH, (IH (16 * 0 + digit_value c)).
    rewrite Nat2Z.inj_succ, Z.pow_succ_r by lia. ring.
Qed.

(** Replacing one digit by a digit of another value changes the number. *)
Lemma hex_value_one_digit ds1 c c' ds2 :
  digit_value c <> digit_value c' ->
  hex_value (ds1 ++ c :: ds2) <> hex_value (ds1 ++ c' :: ds2).
Proof.
  intros ne. unfold hex_value. rewrite !fold_hex_app. cbn [fold_left].
  rewrite (fold_hex_shift ds2), (fold_hex_shift ds2 (_ + digit_value c')).
  assert (0 < 16 ^ Z.of_nat (length ds2)) by (apply Z.pow_pos_nonneg; lia).
  nia.
Qed.

(** With the content kept, the first end marker stays where it is. *)
Lemma split_content_at_least t : forall content suffix,
  split_at_end_marker t = Some (content, suffix) -> (3 <= length content)%nat.
Proof.
  intros content suffix S.
  destruct (split_at_end_marker_spec _ _ _ S) as (pre & -> & _).
  rewrite length_app. cbn. lia.
Qed.

Lemma split_same_content content : forall suffix suffix',
  split_at_end_marker (content ++ suffix) = Some (content, suffix) ->
  split_at_end_marker (content ++ suffix') = Some (content, suffix').
Proof.
  induction content as [|c content IH]; intros suffix suffix' S.
  - apply split_content_at_least in S. cbn in S. lia.
  - cbn [app split_at_end_marker] in *.
    destruct (startswith end_marker (c :: content ++ suffix)) eqn:E.
    + injection S as <- <- _. reflexivity.
    + destruct (split_at_end_marker (content ++ suffix))
        as [[content0 suffix0]|] eqn:S0; [|discriminate].
      injection S as -> ->.
      pose proof (split_content_at_least _ _ _ S0) as L.
      rewrite (IH _ suffix' S0).
      destruct content as [|x [|y r]]; cbn in L; try lia.
      unfold end_marker in E |- * at 1. cbn [app startswith] in *.
      now rewrite E.
Qed.

Lemma checkcrc_hex_digits content ds tail :
  split_at_end_marker (content ++ ds ++ tail) = Some (content, ds ++ tail) ->
  ds <> [] ->
  forallb is_hexdigit ds = true ->
  forallb isspace tail = true ->
  checkcrc (content ++ ds ++ tail) = Ok (hex_value ds =? Crc16.crc16 content).
Proof.
  intros S ne Hd Ht. rewrite (checkcrc_split _ _ _ S).
  assert (Hin : forall c, In c ds -> is_hexdigit c = true)
    by (now apply forallb_forall).
  assert (A : forallb is_ascii (ds ++ tail) = true).
  { rewrite forallb_app. apply andb_true_iff. split; apply forallb_forall.
    - intros c Hc. now destruct (hexdigit_class c (Hin c Hc)) as (_ & _ & -> & _).
    - intros c Hc. apply isspace_ascii.
      rewrite forallb_forall in Ht. now apply Ht. }
  unfold decode_ascii. rewrite A. cbn [bind]. unfold strip.
  rewrite strip_digits; [|assumption| |assumption].
  - now rewrite int16_hex_digits.
  - intros c Hc. now destruct (hexdigit_class c (Hin c Hc)) as (-> & _).
Qed.

(** A checksum in which one digit is replaced by a digit of another
    value is rejected. *)
Lemma changed_digit_rejected content ds1 c c' ds2 tail :
  split_at_end_marker (content ++ (ds1 ++ c :: ds2) ++ tail)
    = Some (content, (ds1 ++ c :: ds2) ++ tail) ->
  checkcrc (content ++ (ds1 ++ c :: ds2) ++ tail) = Ok true ->
  forallb is_hexdigit (ds1 ++ c :: ds2) = true ->
  is_hexdigit c' = true ->
  digit_value c' <> digit_value c ->
  forallb isspace tail = true ->
  checkcrc (content ++ (ds1 ++ c' :: ds2) ++ tail) = Ok false.
Proof.
  intros S V Hd Hc' ne Ht.
  rewrite (checkcrc_hex_digits _ _ _ S) in V;
    [|now destruct ds1|assumption|assumption].
  injection V as V. apply Z.eqb_eq in V.
  rewrite checkcrc_hex_digits; [| |now destruct ds1| |assumption].
  - f_equal. apply Z.eqb_neq. rewrite <- V.
    apply hex_value_one_digit. assumption.
  - exact (split_same_content _ _ _ S).
  - rewrite forallb_app in *. cbn [forallb] in *.
    apply andb_true_iff in Hd as [H1 H2]. apply andb_true_iff in H2 as [_ H2].
    now rewrite H1, Hc', H2.
Qed.

(* ================================================================== *)
(** * Part III: the properties of the specification *)
(* ================================================================== *)

(** ** The CRC validator *)

(** C2: [checkcrc] cuts the telegram behind the first [\r\n!]: the part
    up to and including the marker is the content, the rest the checksum
    text.  It returns [True] exactly when the number the text denotes
    equals the CRC-16/ARC of the content and [False] otherwise; the
    comparison of the two [hex] texts is a comparison of numbers. *)
Theorem checkcrc_splits_at_first_end_marker :
  forall (t content suffix : bytes),
    split_at_end_marker t = Some (content, suffix) ->
    (exists pre,
        content = pre ++ end_marker /\ t = content ++ suffix /\
        forall pre' post', t = pre' ++ end_marker ++ post' ->
                           (length pre <= length pre')%nat)
    /\ checkcrc t =
         (text <- decode_ascii suffix ;;
          given <- int16 (strip text) ;;
          Ok (given =? Crc16.crc16 content))
    /\ (forall a b, str_eqb (hex a) (hex b) = (a =? b)).
Proof.
  intros t content suffix S. split; [|split].
  - destruct (split_at_end_marker_spec _ _ _ S) as (pre & Hc & Ht & Hf & _).
    exists pre. auto.
  - now apply checkcrc_split.
  - apply hex_eqb.
Qed.

Lemma checkcrc_splits_at_first_end_marker_witness :
  split_at_end_marker (Sample.telegram "DEB0")
    = Some (Sample.content, lit "DEB0" ++ [CR; LF])
  /\ checkcrc (Sample.telegram "DEB0") = Ok true.
Proof.
  split; [reflexivity|].
  destruct (checkcrc_splits_at_first_end_marker
              (Sample.telegram "DEB0") Sample.content
              (lit "DEB0" ++ [CR; LF]) eq_refl) as (_ & H & _).
  rewrite H. vm_compute. reflexivity.
Defined.

(** C10: without a [\r\n!] in the telegram the loop of [checkcrc] binds
    nothing and the function raises on [p1contents]; a verdict is
    returned only for a telegram that holds the marker. *)
Theorem checkcrc_without_end_marker :
  forall t : bytes,
    ((forall pre post, t <> pre ++ end_marker ++ post) ->
     checkcrc t = Raise (UnboundLocalError (lit "p1contents")))
    /\ (forall verdict, checkcrc t = Ok verdict ->
        exists pre post, t = pre ++ end_marker ++ post).
Proof.
  intros t. split.
  - intros H. apply checkcrc_no_marker. now apply split_at_end_marker_none.
  - intros verdict V.
    destruct (split_at_end_marker t) as [[content suffix]|] eqn:S.
    + destruct (split_at_end_marker_spec _ _ _ S) as (pre & -> & -> & _).
      exists pre, suffix. now rewrite <- app_assoc.
    + rewrite (checkcrc_no_marker _ S) in V. discriminate V.
Qed.

Lemma checkcrc_without_end_marker_witness :
  checkcrc (lit "/XYZ5 meter") = Raise (UnboundLocalError (lit "p1contents")).
Proof.
  apply (proj1 (checkcrc_without_end_marker (lit "/XYZ5 meter"))).
  apply split_at_end_marker_none. vm_compute. reflexivity.
Defined.

(** ** The time conversion *)

(** C3: what [to_unixtime] does with the flag.  [S] is read as [+0200]
    and [W] as [+0100], so that for the same digits the [W] result is
    3600 seconds after the [S] result.  Any other flag does not fall back
    to UTC: the message of the [else] branch names [lastChar], a variable
    that does not exist, and the call raises [NameError]; so it does at
    [230615123045X], where the digits read with [+0000] would give
    1686832245. *)
Theorem to_unixtime_flags :
  (forall d, to_unixtime (d ++ ["S"%char])
             = Strptime.strptime_timestamp (d ++ lit "+0200"))
  /\ (forall d, to_unixtime (d ++ ["W"%char])
                = Strptime.strptime_timestamp (d ++ lit "+0100"))
  /\ (forall d t, to_unixtime (d ++ ["S"%char]) = Ok t ->
                  to_unixtime (d ++ ["W"%char]) = Ok (t + 3600))
  /\ (forall d c, c <> "W"%char -> c <> "S"%char ->
                  to_unixtime (d ++ [c]) = Raise (NameError (lit "lastChar")))
  /\ to_unixtime (lit "230615123045S") = Ok 1686825045
  /\ to_unixtime (lit "230615123045W") = Ok 1686828645
  /\ to_unixtime (lit "230615123045X") = Raise (NameError (lit "lastChar"))
  /\ Strptime.strptime_timestamp (lit "230615123045" ++ lit "+0000")
     = Ok 1686832245.
Proof.
  split; [exact to_unixtime_summer|].
  split; [exact to_unixtime_winter|].
  split; [exact to_unixtime_hour_apart|].
  split; [exact to_unixtime_other_flag|].
  repeat split; vm_compute; reflexivity.
Qed.

Lemma to_unixtime_flags_witness :
  to_unixtime (lit "991231235959" ++ ["W"%char]) = Ok (946677599 + 3600)
  /\ to_unixtime (lit "230615123045" ++ ["Z"%char])
     = Raise (NameError (lit "lastChar")).
Proof.
  destruct to_unixtime_flags as (_ & _ & Hw & Ho & _). split.
  - apply Hw. vm_compute. reflexivity.
  - apply Ho; discriminate.
Defined.

(** ** The line decoder *)

Section DecoderClaims.

Context {PF : PyFloat}.

(** C7: for a registered code other than the time stamp code (the
    registry holds no serial-number code), [parsetelegramline] splits
    the value text on [*], parses the first part with [float] and
    raises [ValueError] when that fails; the unit is the second part,
    or the empty text when there is no [*].  For the time stamp code
    the value is the text as it stands. *)
Theorem parsetelegramline_value_and_unit :
  forall (p1line description group : str),
    dict_get obiscodes (obis_of p1line) = Some description ->
    captured_group (findall_groups p1line) = Ok group ->
    (obis_of p1line <> timestamp_code ->
       parsetelegramline p1line =
         match float_of_str (hd [] (split [star] group)) with
         | Some number =>
             Ok (Some (mkRow description (VFloat number)
                         (nth 1 (split [star] group) [])))
         | None => Raise ValueError
         end)
    /\ (obis_of p1line = timestamp_code ->
          parsetelegramline p1line =
            Ok (Some (mkRow (lit "Timestamp") (VStr group) [])))
    /\ (~ In star group ->
          hd [] (split [star] group) = group /\
          nth 1 (split [star] group) [] = [])
    /\ (forall left right,
          group = left ++ star :: right -> ~ In star left ->
          ~ In star right ->
          hd [] (split [star] group) = left /\
          nth 1 (split [star] group) [] = right).
Proof.
  intros p1line description group G C. repeat split.
  - intros ne. now apply parsetelegramline_number.
  - intros E. now apply parsetelegramline_timestamp.
  - now rewrite split_one.
  - now rewrite split_one.
  - subst group. now rewrite split_two.
  - subst group. now rewrite split_two.
Qed.

(** C8: the description of a row is the registry's entry for the code
    of its line, so the same code always gives the same description;
    both gas codes give "Gas consumption"; and in the record folded
    from the lines of a telegram, keyed by description with one entry
    per key, a description holds the value of the last line that
    decoded to it. *)
Theorem registry_lookup_and_last_write_wins :
  (forall line1 line2 r1 r2,
      obis_of line1 = obis_of line2 ->
      parsetelegramline line1 = Ok (Some r1) ->
      parsetelegramline line2 = Ok (Some r2) ->
      desc r1 = desc r2)
  /\ dict_get obiscodes (lit "0-1:24.2.3") = Some (lit "Gas consumption")
  /\ dict_get obiscodes (lit "0-1:24.2.1") = Some (lit "Gas consumption")
  /\ (forall (before after : list bytes) line text r output,
        decode_ascii line = Ok text ->
        parsetelegramline text = Ok (Some r) ->
        Forall (no_row_for (desc r)) after ->
        parse_lines (before ++ line :: after) [] = Ok output ->
        dict_get output (desc r) = Some (val r) /\
        NoDup (map fst output)).
Proof.
  split; [|split; [reflexivity|split; [reflexivity|]]].
  - intros line1 line2 r1 r2 E P1 P2.
    apply parsetelegramline_row in P1 as [G1 _].
    apply parsetelegramline_row in P2 as [G2 _].
    rewrite E in G1. congruence.
  - intros before after line text r output D P F H.
    rewrite parse_lines_app in H.
    destruct (parse_lines before []) as [output0|e] eqn:P0; [|discriminate].
    cbn [bind parse_lines] in H. rewrite D in H. cbn [bind] in H.
    rewrite P in H. split.
    + rewrite (parse_lines_keeps _ _ _ _ F H). apply dict_get_set_same.
    + assert (nd0 : NoDup (map fst output0))
        by (apply (parse_lines_NoDup before [] output0); [constructor|exact P0]).
      cbn [bind] in H.
      exact (parse_lines_NoDup _ _ _ (dict_set_NoDup _ _ _ nd0) H).
Qed.

(** C5: the registry holds no code with the marker [96.1.1] (the two
    serial-number entries are commented out), so a serial-number line
    is decoded to the empty dictionary.  The hexadecimal decoding
    applies to a code with the marker once the registry in use holds
    it. *)
Theorem serial_number_lines :
  (forall p1line,
      contains (lit "96.1.1") (obis_of p1line) = true ->
      parsetelegramline p1line = Ok None)
  /\ (forall codes p1line description group,
        dict_get codes (obis_of p1line) = Some description ->
        contains (lit "96.1.1") (obis_of p1line) = true ->
        captured_group (findall_groups p1line) = Ok group ->
        parsetelegramline_in codes p1line =
          (raw <- of_option ValueError (fromhex group) ;;
           text <- decode_utf8 raw ;;
           Ok (Some (mkRow description (VStr text) []))))
  /\ fromhex (lit "4142") = Some (lit "AB")
  /\ parsetelegramline_in (serial_codes ++ obiscodes)
       (lit "0-0:96.1.1(4142)")
     = Ok (Some (mkRow (lit "Meter serial electricity")
                   (VStr (lit "AB")) [])).
Proof.
  split; [|split; [|split; reflexivity]].
  - intros p1line M. apply parsetelegramline_unregistered.
    destruct (dict_get obiscodes (obis_of p1line)) as [d|] eqn:G;
      [|reflexivity].
    rewrite (registry_has_no_serial_code _ _ G) in M. discriminate M.
  - intros codes p1line description group G M C.
    unfold parsetelegramline_in. now rewrite G, C, M.
Qed.

End DecoderClaims.

Lemma parsetelegramline_value_and_unit_witness :
  parsetelegramline (PF := Decimal.pyfloat) (lit "1-0:1.8.1(000123.456*kWh)")
  = Ok (Some (mkRow (lit "Rate 1 (day) - total consumption")
                (Sample.number 123456 3) (lit "kWh"))).
Proof.
  destruct (parsetelegramline_value_and_unit (PF := Decimal.pyfloat)
              (lit "1-0:1.8.1(000123.456*kWh)")
              (lit "Rate 1 (day) - total consumption")
              (lit "000123.456*kWh") eq_refl eq_refl) as (H & _).
  rewrite H; [reflexivity | discriminate].
Defined.

Lemma registry_lookup_and_last_write_wins_witness :
  exists output,
    parse_lines (PF := Decimal.pyfloat)
      ([Sample.gas_line_1] ++ Sample.gas_line_2 :: []) [] = Ok output /\
    dict_get output (lit "Gas consumption") = Some (Sample.number 12500 3) /\
    NoDup (map fst output).
Proof.
  destruct (registry_lookup_and_last_write_wins (PF := Decimal.pyfloat))
    as (_ & _ & _ & L).
  eexists. split; [reflexivity|].
  exact (L [Sample.gas_line_1] [] Sample.gas_line_2 Sample.gas_line_2
           (mkRow (lit "Gas consumption") (Sample.number 12500 3) (lit "m3"))
           _ eq_refl eq_refl (Forall_nil _) eq_refl).
Defined.

Lemma serial_number_lines_witness :
  parsetelegramline (PF := Decimal.pyfloat) (lit "0-1:96.1.1(4142)") = Ok None.
Proof.
  apply (proj1 (serial_number_lines (PF := Decimal.pyfloat))).
  vm_compute. reflexivity.
Defined.

(** The line decoder gives no measurement for a serial-number line. *)
Lemma serial_line_not_decoded :
  contains (lit "96.1.1") (obis_of (lit "0-0:96.1.1(4142)")) = true /\
  ~ exists r : row,
      parsetelegramline (PF := Decimal.pyfloat) (lit "0-0:96.1.1(4142)")
        = Ok (Some r)
      /\ val r = VStr (lit "AB").
Proof.
  split; [reflexivity|]. intros [r [H _]].
  assert (E : parsetelegramline (PF := Decimal.pyfloat)
                (lit "0-0:96.1.1(4142)") = Ok None) by reflexivity.
  rewrite E in H. discriminate H.
Qed.

(** ** The acquisition loop *)

Section LoopClaims.

Context {PF : PyFloat}.

(** The sum of two rate fields of a well-typed record. *)
Lemma total_cases output day night :
  well_typed output ->
  str_eqb day (lit "Timestamp") = false ->
  str_eqb night (lit "Timestamp") = false ->
  (dict_get output day = None /\
   total output day night = Raise (KeyError day))
  \/ (dict_get output night = None /\
      total output day night = Raise (KeyError night))
  \/ (exists a b,
        dict_get output day = Some (VFloat a) /\
        dict_get output night = Some (VFloat b) /\
        total output day night = Ok (VFloat (float_add a b))).
Proof.
  intros wt Hd Hn. unfold total, dict_item.
  destruct (dict_get output day) as [va|] eqn:Gd; [|left; now split].
  destruct (dict_get output night) as [vb|] eqn:Gn;
    [|right; left; now split].
  pose proof (wt _ _ Gd) as Ta. rewrite Hd in Ta. destruct Ta as [a ->].
  pose proof (wt _ _ Gn) as Tb. rewrite Hn in Tb. destruct Tb as [b ->].
  right; right. exists a, b. now repeat split.
Qed.

(** [append_row] appends the row, after a header row when the file is
    new. *)
Lemma append_row_lookup filename row_data fs :
  dict_get (append_row filename row_data fs) filename =
    Some match dict_get fs filename with
         | Some old => old ++ [map snd row_data]
         | None => [map CStr (map fst row_data); map snd row_data]
         end.
Proof.
  unfold append_row. rewrite dict_get_set_same.
  now destruct (dict_get fs filename).
Qed.

Lemma append_row_changes filename row_data fs :
  append_row filename row_data fs <> fs.
Proof.
  intros E. pose proof (append_row_lookup filename row_data fs) as L.
  rewrite E in L. destruct (dict_get fs filename) as [old|];
    [|discriminate L].
  injection L as L. apply (f_equal (@length _)) in L.
  rewrite length_app in L. cbn in L. lia.
Qed.

(** C1: an iteration of the loop writes to a file or changes
    [latest_data] only when its line completes a telegram for which
    [checkcrc] returned [True], and a run of the loop in which
    [checkcrc] accepts no buffer writes and publishes nothing.  When,
    in a telegram that passes, one byte behind the end marker is
    changed, whatever the byte, [checkcrc] still returns [True] exactly
    when the changed text reads, as [int(text.strip(), 16)] reads it,
    as the same number; in every other case, a different number or a
    text that is no number or does not decode, the iteration writes no
    row and publishes nothing.  So it is when one hexadecimal digit of
    the checksum is replaced by a digit of another value: [checkcrc]
    returns [False]. *)
Theorem effects_only_after_valid_crc :
  (forall (st : State) (p1line : bytes),
      let st' := loop_iteration st p1line in
      files st' <> files st \/ latest_data st' <> latest_data st ->
      contains (lit "!") p1line = true /\
      p1telegram st' = framed st p1line /\
      checkcrc (p1telegram st') = Ok true)
  /\ (forall (st : State) (p1line : bytes) content s1 c c' s2,
        split_at_end_marker (content ++ s1 ++ c :: s2)
          = Some (content, s1 ++ c :: s2) ->
        checkcrc (content ++ s1 ++ c :: s2) = Ok true ->
        framed st p1line = content ++ s1 ++ c' :: s2 ->
        let st' := loop_iteration st p1line in
        (checkcrc (framed st p1line) = Ok true <->
         checksum_number (s1 ++ c' :: s2)
         = checksum_number (s1 ++ c :: s2)) /\
        (checksum_number (s1 ++ c' :: s2)
         <> checksum_number (s1 ++ c :: s2) ->
         files st' = files st /\ latest_data st' = latest_data st))
  /\ (forall (st : State) (p1line : bytes) content ds1 c c' ds2 tail,
        split_at_end_marker (content ++ (ds1 ++ c :: ds2) ++ tail)
          = Some (content, (ds1 ++ c :: ds2) ++ tail) ->
        checkcrc (content ++ (ds1 ++ c :: ds2) ++ tail) = Ok true ->
        forallb is_hexdigit (ds1 ++ c :: ds2) = true ->
        is_hexdigit c' = true ->
        digit_value c' <> digit_value c ->
        forallb isspace tail = true ->
        framed st p1line = content ++ (ds1 ++ c' :: ds2) ++ tail ->
        let st' := loop_iteration st p1line in
        checkcrc (framed st p1line) = Ok false /\
        files st' = files st /\ latest_data st' = latest_data st)
  /\ (forall (st : State) (input : list bytes),
        (forall before p1line after,
            input = before ++ p1line :: after ->
            checkcrc (framed (acquisition_loop st before) p1line)
              <> Ok true) ->
        files (acquisition_loop st input) = files st /\
        latest_data (acquisition_loop st input) = latest_data st).
Proof.
  split; [exact loop_iteration_effects|]. split; [|split].
  - intros st p1line content s1 c c' s2 S V F st'.
    pose proof (proj1 (checkcrc_accepts_iff _ _ _ S) V) as N.
    pose proof (checkcrc_accepts_iff _ _ _
                  (split_same_content _ _ (s1 ++ c' :: s2) S)) as A.
    rewrite F, N. split; [exact A|].
    intros ne. subst st'. apply loop_iteration_no_effect.
    rewrite F. intros R. apply ne, A, R.
  - intros st p1line content ds1 c c' ds2 tail S V Hd Hc ne Ht F st'.
    assert (R : checkcrc (framed st p1line) = Ok false).
    { rewrite F.
      now apply (changed_digit_rejected content ds1 c c' ds2 tail). }
    split; [exact R|]. apply loop_iteration_no_effect. congruence.
  - intros st input. apply acquisition_loop_no_effect.
Qed.

(** C4: for a telegram that passed [checkcrc], a record without the
    time stamp raises [KeyError] before anything is written or
    published.  A record with the time stamp but without one of the
    four rate fields raises too (a missing field is a [KeyError], not a
    zero), after the row of the full record has been appended to the
    day's file (when that file can be opened): the summed row is not
    written and [latest_data] is not changed. *)
Theorem missing_fields_fault :
  forall (st : State) (t : bytes) (output : dict value),
    checkcrc t = Ok true ->
    parse_lines (split CRLF t) [] = Ok output ->
    (dict_get output (lit "Timestamp") = None ->
       validate_and_process t st
       = (Raise (KeyError (lit "Timestamp")), st))
    /\ (forall p1time,
          dict_get output (lit "Timestamp") = Some (VStr p1time) ->
          (exists k, In k rate_fields /\ dict_get output k = None) ->
          let name := full_name (firstn 6 p1time) in
          let st1 :=
            set_files (append_row name (full_row output) (files st)) st in
          (can_append st name = false ->
             validate_and_process t st = (Raise OSError, st))
          /\ (can_append st name = true ->
                exists e, validate_and_process t st = (Raise e, st1) /\
                  (forall timestamp, to_unixtime p1time = Ok timestamp ->
                     exists k, In k rate_fields /\
                               dict_get output k = None /\ e = KeyError k))
          /\ latest_data st1 = latest_data st
          /\ files st1 <> files st
          /\ dict_get (files st1) name =
               Some match dict_get (files st) name with
                    | Some old => old ++ [map snd (full_row output)]
                    | None => [map CStr (map fst (full_row output));
                               map snd (full_row output)]
                    end).
Proof.
  intros st t output V P. rewrite validate_and_process_eq, V.
  rewrite (process_telegram_run _ _ _ P).
  pose proof (parse_lines_well_typed _ _ _ well_typed_empty P) as wt.
  split.
  - now intros ->.
  - intros p1time T [k0 [Hk0 G0]] name st1. rewrite T. cbv zeta.
    fold name. fold st1.
    split; [now intros ->|]. split; [|split; [reflexivity|split]].
    + intros ->. destruct (to_unixtime p1time) as [timestamp|e].
      * destruct (total_cases output rate1_consumption rate2_consumption
                    wt eq_refl eq_refl)
          as [[G ->]|[[G ->]|(a & b & Ga & Gb & ->)]].
        -- eexists. split; [reflexivity|]. intros _ _.
           exists rate1_consumption. cbn. auto.
        -- eexists. split; [reflexivity|]. intros _ _.
           exists rate2_consumption. cbn. auto.
        -- destruct (total_cases output rate1_production rate2_production
                       wt eq_refl eq_refl)
             as [[G ->]|[[G ->]|(c & d & Gc & Gd & ->)]].
           ++ eexists. split; [reflexivity|]. intros _ _.
              exists rate1_production. cbn. auto.
           ++ eexists. split; [reflexivity|]. intros _ _.
              exists rate2_production. cbn. auto 6.
           ++ exfalso. destruct Hk0 as [<-|[<-|[<-|[<-|[]]]]]; congruence.
      * eexists. split; [reflexivity|]. intros timestamp [=].
    + apply append_row_changes.
    + apply append_row_lookup.
Qed.

(** C6: for a line that decodes as ASCII, the buffer is emptied first
    when the line holds [/], the line is appended with its terminator,
    and when the line holds [!] the buffer goes to [checkcrc] as the
    telegram.  A line with a byte above 127 raises before the buffer is
    touched and is not appended. *)
Theorem framer_on_decodable_lines :
  forall (st : State) (p1line : bytes),
    (forallb is_ascii p1line = true ->
       let buffer :=
         (if contains (lit "/") p1line then [] else p1telegram st)
           ++ p1line in
       p1telegram (loop_iteration st p1line) = buffer /\
       try_body p1line st =
         if contains (lit "!") p1line
         then validate_and_process buffer (set_p1telegram buffer st)
         else (Ok tt, set_p1telegram buffer st))
    /\ (forallb is_ascii p1line = false ->
          try_body p1line st = (Raise UnicodeDecodeError, st) /\
          p1telegram (loop_iteration st p1line) = p1telegram st).
Proof.
  intros st p1line. unfold loop_iteration. rewrite try_body_eq.
  fold (framed st p1line). split; intros A; rewrite A; cbv zeta.
  - split; [|reflexivity].
    destruct (contains (lit "!") p1line); [|reflexivity].
    rewrite validate_and_process_eq.
    destruct (checkcrc (framed st p1line)) as [[|]|e]; try reflexivity.
    pose proof (process_telegram_frame (framed st p1line)
                  (set_p1telegram (framed st p1line) st)) as [Hb _].
    destruct (process_telegram _ _) as [[u|e] st'']; exact Hb.
  - now split.
Qed.

(** C9: after an iteration that completed on a telegram accepted by
    [checkcrc], [latest_data] is the text
    [{"ts":"T","c":"C","p":"P"}] in which T is the decimal text of the
    Unix time of the time stamp and C and P are the texts of the sums
    of the two consumption and the two production rates; the text is
    spelled out character by character, each of the three keys and
    each of the three values between two double quotes (the character
    with code 34).  A request
    with [?live] in its path is answered with status 200 and the
    current [latest_data], which is the empty text until the first
    telegram is published. *)
Theorem snapshot_json_and_live_query :
  (forall (st st' : State) (p1line : bytes),
      try_body p1line st = (Ok tt, st') ->
      contains (lit "!") p1line = true ->
      checkcrc (framed st p1line) = Ok true ->
      exists output p1time timestamp a b c d,
        parse_lines (split CRLF (framed st p1line)) [] = Ok output /\
        dict_get output (lit "Timestamp") = Some (VStr p1time) /\
        to_unixtime p1time = Ok timestamp /\
        dict_get output rate1_consumption = Some (VFloat a) /\
        dict_get output rate2_consumption = Some (VFloat b) /\
        dict_get output rate1_production = Some (VFloat c) /\
        dict_get output rate2_production = Some (VFloat d) /\
        latest_data st' =
          lit "{" ++ "034"%char :: lit "ts" ++ "034"%char :: lit ":"
            ++ "034"%char :: str_of_int timestamp ++ "034"%char :: lit ","
            ++ "034"%char :: lit "c" ++ "034"%char :: lit ":"
            ++ "034"%char :: float_str (float_add a b)
            ++ "034"%char :: lit ","
            ++ "034"%char :: lit "p" ++ "034"%char :: lit ":"
            ++ "034"%char :: float_str (float_add c d)
            ++ "034"%char :: lit "}")
  /\ (forall (path : str) (st : State),
        contains (lit "?live") path = true ->
        do_GET path st =
          Some (mkResponse 200
                  [(lit "Content-type", lit "application/json")]
                  (latest_data st)))
  /\ (forall disk openable,
        latest_data (initial_state disk openable) = []).
Proof.
  split; [|split].
  - intros st st' p1line. rewrite try_body_eq.
    destruct (forallb is_ascii p1line); [|discriminate]. cbv zeta.
    intros H M V. rewrite M, validate_and_process_eq, V in H.
    destruct (parse_lines (split CRLF (framed st p1line)) [])
      as [output|e] eqn:P;
      [|rewrite (process_telegram_parse_error _ _ _ P) in H; discriminate].
    rewrite (process_telegram_run _ _ _ P) in H.
    pose proof (parse_lines_well_typed _ _ _ well_typed_empty P) as wt.
    destruct (dict_get output (lit "Timestamp")) as [[p1time|f]|] eqn:T;
      try discriminate.
    cbv zeta in H.
    destruct (can_append _ (full_name _)); [|discriminate].
    destruct (to_unixtime p1time) as [timestamp|e] eqn:U; [|discriminate].
    destruct (total_cases output rate1_consumption rate2_consumption
                wt eq_refl eq_refl)
      as [[G E]|[[G E]|(a & b & Ga & Gb & E)]]; rewrite E in H;
      try discriminate.
    destruct (total_cases output rate1_production rate2_production
                wt eq_refl eq_refl)
      as [[G' E']|[[G' E']|(c & d & Gc & Gd & E')]]; rewrite E' in H;
      try discriminate.
    destruct (can_append _ (summed_name _)); [|discriminate].
    injection H as <-.
    exists output, p1time, timestamp, a, b, c, d.
    repeat (split; [assumption || reflexivity|]).
    cbn [latest_data set_latest_data set_files]. unfold snapshot_json, quoted.
    cbn [format_value app]. rewrite <- ?app_assoc. reflexivity.
  - intros path st L. unfold do_GET. now rewrite L.
  - reflexivity.
Qed.

End LoopClaims.

(** The checksum text [DEB0] with its [E] turned into [e], one byte, is
    still accepted: rows are written and the snapshot is published. *)
Lemma changed_checksum_byte_still_accepted :
  let st' := acquisition_loop Sample.start (Sample.lines "DeB0") in
  checkcrc (Sample.telegram "DEB0") = Ok true /\
  Sample.telegram "DEB0" = Sample.content ++ lit "DEB0" ++ [CR; LF] /\
  Sample.telegram "DeB0" = Sample.content ++ lit "DeB0" ++ [CR; LF] /\
  p1telegram st' = Sample.telegram "DeB0" /\
  map fst (files st')
    = [lit "data/230615.csv"; lit "data/230615_summed.csv"] /\
  files st' <> files Sample.start /\
  latest_data st' <> latest_data Sample.start.
Proof.
  cbv zeta. do 5 (split; [vm_compute; reflexivity|]). split.
  - intros E. apply (f_equal (@length _)) in E. vm_compute in E.
    discriminate E.
  - vm_compute. discriminate.
Qed.

Lemma effects_only_after_valid_crc_witness :
  checkcrc
    (p1telegram
       (loop_iteration Sample.before_last_line (Sample.last_line "DEB0")))
  = Ok true
  /\ files (loop_iteration Sample.before_last_line (Sample.last_line "DFB0"))
     = files Sample.before_last_line
  /\ files (loop_iteration Sample.before_last_line (Sample.last_line "DGB0"))
     = files Sample.before_last_line
  /\ files (loop_iteration Sample.before_last_line (Sample.last_line "D_B0"))
     = files Sample.before_last_line
  /\ files (loop_iteration Sample.before_last_line (Sample.last_line "+EB0"))
     = files Sample.before_last_line
  /\ files (loop_iteration Sample.before_last_line (Sample.last_line " EB0"))
     = files Sample.before_last_line.
Proof.
  destruct (effects_only_after_valid_crc (PF := Decimal.pyfloat))
    as (A & B & C & _).
  split; [|split; [|split; [|split; [|split]]]].
  - apply A. left. intros E. apply (f_equal (@length _)) in E.
    vm_compute in E. discriminate E.
  - apply (C Sample.before_last_line (Sample.last_line "DFB0")
             Sample.content (lit "D") "E"%char "F"%char (lit "B0") [CR; LF]);
      try (vm_compute; reflexivity).
    vm_compute. discriminate.
  - apply (B Sample.before_last_line (Sample.last_line "DGB0")
             Sample.content (lit "D") "E"%char "G"%char
             (lit "B0" ++ [CR; LF]));
      try (vm_compute; reflexivity).
    vm_compute. discriminate.
  - apply (B Sample.before_last_line (Sample.last_line "D_B0")
             Sample.content (lit "D") "E"%char "_"%char
             (lit "B0" ++ [CR; LF]));
      try (vm_compute; reflexivity).
    vm_compute. discriminate.
  - apply (B Sample.before_last_line (Sample.last_line "+EB0")
             Sample.content [] "D"%char "+"%char (lit "EB0" ++ [CR; LF]));
      try (vm_compute; reflexivity).
    vm_compute. discriminate.
  - apply (B Sample.before_last_line (Sample.last_line " EB0")
             Sample.content [] "D"%char " "%char (lit "EB0" ++ [CR; LF]));
      try (vm_compute; reflexivity).
    vm_compute. discriminate.
Defined.

(** A telegram with a valid checksum and no rate field: the row of the
    full record is written all the same. *)
Lemma missing_rates_full_row_written :
  let t := Sample.telegram_without_rates in
  let st' := acquisition_loop Sample.start Sample.lines_without_rates in
  checkcrc t = Ok true /\
  parse_lines (PF := Decimal.pyfloat) (split [CR; LF] t) []
    = Ok [(lit "Timestamp", VStr (lit "230615123045S"))] /\
  p1telegram st' = t /\
  files st'
    = [(lit "data/230615.csv",
        [[CStr (lit "Timestamp")]; [CStr (lit "230615123045S")]])] /\
  files st' <> files Sample.start.
Proof.
  cbv zeta. split; [vm_compute; reflexivity|].
  split; [reflexivity|]. split; [vm_compute; reflexivity|].
  split; [reflexivity|].
  intros E. apply (f_equal (@length _)) in E. vm_compute in E. discriminate E.
Qed.

Lemma missing_fields_fault_witness :
  exists e,
    validate_and_process Sample.telegram_without_rates Sample.start
    = (Raise e,
       set_files
         (append_row (full_name (lit "230615"))
            (full_row [(lit "Timestamp", VStr (lit "230615123045S"))])
            (files Sample.start)) Sample.start).
Proof.
  destruct (missing_fields_fault (PF := Decimal.pyfloat) Sample.start
              Sample.telegram_without_rates
              [(lit "Timestamp", VStr (lit "230615123045S"))]
              eq_refl eq_refl) as [_ H].
  destruct (H (lit "230615123045S") eq_refl
              (ex_intro _ rate1_consumption (conj (or_introl eq_refl) eq_refl)))
    as (_ & W & _).
  destruct (W eq_refl) as [e [He _]].
  exists e. exact He.
Defined.

(** A line with a byte above 127 is not appended to the buffer. *)
Lemma damaged_line_not_appended :
  let st := Sample.after_three_lines in
  let st' := loop_iteration st Sample.damaged_line in
  p1telegram st = concat (firstn 3 (Sample.lines "0000")) /\
  p1telegram st' = p1telegram st /\
  p1telegram st' <> p1telegram st ++ Sample.damaged_line /\
  port_open st' = false.
Proof.
  cbv zeta. repeat split; try (vm_compute; reflexivity).
  vm_compute. discriminate.
Qed.

Lemma framer_on_decodable_lines_witness :
  p1telegram
    (loop_iteration Sample.after_three_lines
       (Sample.crlf "1-0:1.8.1(000123.456*kWh)"))
  = p1telegram Sample.after_three_lines
      ++ Sample.crlf "1-0:1.8.1(000123.456*kWh)".
Proof.
  apply (proj1 (framer_on_decodable_lines (PF := Decimal.pyfloat)
                  Sample.after_three_lines
                  (Sample.crlf "1-0:1.8.1(000123.456*kWh)"))).
  vm_compute. reflexivity.
Defined.

Lemma snapshot_json_and_live_query_witness :
  (exists timestamp a b c d,
     latest_data
       (snd (try_body (Sample.last_line "DEB0") Sample.before_last_line))
     = lit "{" ++ "034"%char :: lit "ts" ++ "034"%char :: lit ":"
         ++ "034"%char :: str_of_int timestamp ++ "034"%char :: lit ","
         ++ "034"%char :: lit "c" ++ "034"%char :: lit ":"
         ++ "034"%char :: Decimal.to_str (Decimal.add a b)
         ++ "034"%char :: lit ","
         ++ "034"%char :: lit "p" ++ "034"%char :: lit ":"
         ++ "034"%char :: Decimal.to_str (Decimal.add c d)
         ++ "034"%char :: lit "}")
  /\ latest_data
       (snd (try_body (Sample.last_line "DEB0") Sample.before_last_line))
     = lit "{" ++ "034"%char :: lit "ts" ++ "034"%char :: lit ":"
         ++ "034"%char :: lit "1686825045" ++ "034"%char :: lit ","
         ++ "034"%char :: lit "c" ++ "034"%char :: lit ":"
         ++ "034"%char :: lit "123.456" ++ "034"%char :: lit ","
         ++ "034"%char :: lit "p" ++ "034"%char :: lit ":"
         ++ "034"%char :: lit "0.0" ++ "034"%char :: lit "}".
Proof.
  split; [|vm_compute; reflexivity].
  destruct (proj1 (snapshot_json_and_live_query (PF := Decimal.pyfloat))
              Sample.before_last_line
              (snd (try_body (Sample.last_line "DEB0")
                      Sample.before_last_line))
              (Sample.last_line "DEB0"))
    as (output & p1time & timestamp & a & b & c & d & H).
  - rewrite (surjective_pairing (try_body _ _)) at 1.
    f_equal; vm_compute; reflexivity.
  - vm_compute. reflexivity.
  - vm_compute. reflexivity.
  - exists timestamp, a, b, c, d. apply H.
Defined.

(* ================================================================== *)
(** * Part IV: further properties of the code *)
(* ================================================================== *)

(** ** CRC-16: one changed byte changes the checksum *)

Module Crc16Facts.

Import Crc16 Crc16Inv.

Lemma lxor_range a b :
  0 <= a < 65536 -> 0 <= b < 65536 -> 0 <= Z.lxor a b < 65536.
Proof.
  intros Ha Hb. assert (N : 0 <= Z.lxor a b) by (apply Z.lxor_nonneg; lia).
  split; [exact N|].
  destruct (Z.eq_dec (Z.lxor a b) 0) as [->|nz]; [lia|].
  change 65536 with (2 ^ 16). apply Z.log2_lt_pow2; [lia|].
  pose proof (Z.log2_lxor a b ltac:(lia) ltac:(lia)) as L.
  assert (La : Z.log2 a < 16).
  { destruct (Z.eq_dec a 0) as [->|]; [cbn; lia|].
    apply Z.log2_lt_pow2; [lia|]. change (2 ^ 16) with 65536. lia. }
  assert (Lb : Z.log2 b < 16).
  { destruct (Z.eq_dec b 0) as [->|]; [cbn; lia|].
    apply Z.log2_lt_pow2; [lia|]. change (2 ^ 16) with 65536. lia. }
  lia.
Qed.

(** Bit 15 of a value below [2^15] is clear. *)
Lemma top_bit_clear q : 0 <= q < 32768 -> Z.testbit q 15 = false.
Proof.
  intros Hq. destruct (Z.eq_dec q 0) as [->|nz]; [reflexivity|].
  apply Z.bits_above_log2; [lia|].
  apply Z.log2_lt_pow2; [lia|]. change (2 ^ 15) with 32768. lia.
Qed.

(** [step_bit] keeps 16-bit values and [unstep_bit] undoes it: the
    polynomial has bit 15 set, the shifted value has not. *)
Lemma step_bit_spec s :
  0 <= s < 65536 ->
  0 <= step_bit s < 65536 /\ unstep_bit (step_bit s) = s.
Proof.
  intros Hs. unfold step_bit, unstep_bit.
  rewrite Z.shiftr_div_pow2 by lia. change (2 ^ 1) with 2.
  assert (Hq : 0 <= s / 2 < 32768)
    by (split; [apply Z.div_pos | apply Z.div_lt_upper_bound]; lia).
  pose proof (top_bit_clear _ Hq) as T.
  pose proof (Z.div_mod s 2 ltac:(lia)) as D.
  rewrite Z.bit0_odd. pose proof (Zmod_odd s) as O.
  destruct (Z.odd s).
  - assert (B : Z.testbit (Z.lxor (s / 2) 40961) 15 = true)
      by (rewrite Z.lxor_spec, T; reflexivity).
    rewrite B. split; [apply lxor_range; lia|].
    rewrite Z.lxor_assoc, Z.lxor_nilpotent, Z.lxor_0_r. lia.
  - rewrite T. lia.
Qed.

Lemma iter_step_bit_range n s :
  0 <= s < 65536 -> 0 <= Nat.iter n step_bit s < 65536.
Proof.
  intros Hs. induction n as [|n IH]; cbn [Nat.iter]; [exact Hs|].
  now apply step_bit_spec.
Qed.

Lemma iter_step_bit_inj n s1 s2 :
  0 <= s1 < 65536 -> 0 <= s2 < 65536 ->
  Nat.iter n step_bit s1 = Nat.iter n step_bit s2 -> s1 = s2.
Proof.
  intros H1 H2. induction n as [|n IH]; [easy|].
  rewrite !Nat.iter_succ. intros E. apply IH.
  destruct (step_bit_spec _ (iter_step_bit_range n s1 H1)) as [_ U1].
  destruct (step_bit_spec _ (iter_step_bit_range n s2 H2)) as [_ U2].
  congruence.
Qed.

Lemma ord_range c : 0 <= ord c < 256.
Proof.
  unfold ord. pose proof (N_ascii_bounded c). lia.
Qed.

Lemma ord_inj x y : ord x = ord y -> x = y.
Proof.
  unfold ord. intros E. apply N2Z.inj in E.
  rewrite <- (ascii_N_embedding x), <- (ascii_N_embedding y). now rewrite E.
Qed.

Lemma lxor_cancel_l a b c : Z.lxor a b = Z.lxor a c -> b = c.
Proof.
  intros E. apply (f_equal (Z.lxor a)) in E.
  now rewrite <- !Z.lxor_assoc, Z.lxor_nilpotent, !Z.lxor_0_l in E.
Qed.

Lemma lxor_cancel_r a b c : Z.lxor a c = Z.lxor b c -> a = b.
Proof.
  rewrite (Z.lxor_comm a), (Z.lxor_comm b). apply lxor_cancel_l.
Qed.

Lemma step_byte_range s c : 0 <= s < 65536 -> 0 <= step_byte s c < 65536.
Proof.
  intros Hs. apply iter_step_bit_range, lxor_range; [exact Hs|].
  pose proof (ord_range c). lia.
Qed.

Lemma step_byte_inj_state s1 s2 c :
  0 <= s1 < 65536 -> 0 <= s2 < 65536 ->
  step_byte s1 c = step_byte s2 c -> s1 = s2.
Proof.
  intros H1 H2 E. pose proof (ord_range c) as Hc.
  apply iter_step_bit_inj in E; [|apply lxor_range; lia..].
  exact (lxor_cancel_r _ _ _ E).
Qed.

Lemma step_byte_inj_byte s x y :
  0 <= s < 65536 -> step_byte s x = step_byte s y -> x = y.
Proof.
  intros Hs E. pose proof (ord_range x). pose proof (ord_range y).
  apply iter_step_bit_inj in E; [|apply lxor_range; lia..].
  apply ord_inj. exact (lxor_cancel_l _ _ _ E).
Qed.

Lemma fold_range data : forall s,
  0 <= s < 65536 -> 0 <= fold_left step_byte data s < 65536.
Proof.
  induction data as [|c data IH]; intros s Hs; cbn [fold_left]; [exact Hs|].
  now apply IH, step_byte_range.
Qed.

Lemma fold_inj data : forall s1 s2,
  0 <= s1 < 65536 -> 0 <= s2 < 65536 ->
  fold_left step_byte data s1 = fold_left step_byte data s2 -> s1 = s2.
Proof.
  induction data as [|c data IH]; intros s1 s2 H1 H2; cbn [fold_left];
    [easy|].
  intros E. apply IH in E; [|now apply step_byte_range..].
  exact (step_byte_inj_state _ _ _ H1 H2 E).
Qed.

Lemma crc16_range data : 0 <= crc16 data < 65536.
Proof. apply fold_range. lia. Qed.

Lemma crc16_one_byte a x y b :
  crc16 (a ++ x :: b) = crc16 (a ++ y :: b) -> x = y.
Proof.
  unfold crc16. rewrite !fold_left_app. cbn [fold_left]. intros E.
  assert (Hs : 0 <= fold_left step_byte a 0 < 65536)
    by (apply fold_range; lia).
  apply fold_inj in E; [|now apply step_byte_range..].
  exact (step_byte_inj_byte _ _ _ Hs E).
Qed.

End Crc16Facts.

(** ** More on [checkcrc] *)

Lemma hexdigit_upper_spec d :
  0 <= d < 16 -> hexval (hexdigit_upper d) = Some d.
Proof.
  intros Hd.
  assert (E : In d (map Z.of_nat (seq 0 16))).
  { rewrite <- (Z2Nat.id d) by lia. apply in_map, in_seq. lia. }
  cbn [seq map] in E.
  repeat (destruct E as [<-|E]; [reflexivity|]). destruct E.
Qed.

Lemma checksum_text_spec crc :
  0 <= crc < 65536 ->
  forallb is_hexdigit (checksum_text crc) = true /\
  hex_value (checksum_text crc) = crc.
Proof.
  intros Hc. unfold checksum_text, hex_value, is_hexdigit, digit_value.
  cbn [forallb fold_left].
  rewrite !hexdigit_upper_spec by (apply Z.mod_pos_bound; lia).
  split; [reflexivity|].
  replace (crc / 4096) with (crc / 16 / 16 / 16)
    by (rewrite !Z.div_div by lia; reflexivity).
  replace (crc / 256) with (crc / 16 / 16)
    by (rewrite !Z.div_div by lia; reflexivity).
  pose proof (Z.div_mod crc 16 ltac:(lia)).
  pose proof (Z.mod_pos_bound crc 16 ltac:(lia)).
  pose proof (Z.div_mod (crc / 16) 16 ltac:(lia)).
  pose proof (Z.mod_pos_bound (crc / 16) 16 ltac:(lia)).
  pose proof (Z.div_mod (crc / 16 / 16) 16 ltac:(lia)).
  pose proof (Z.mod_pos_bound (crc / 16 / 16) 16 ltac:(lia)).
  pose proof (Z.div_mod (crc / 16 / 16 / 16) 16 ltac:(lia)).
  pose proof (Z.mod_pos_bound (crc / 16 / 16 / 16) 16 ltac:(lia)).
  assert (crc / 16 / 16 / 16 / 16 = 0).
  { rewrite !Z.div_div by lia. apply Z.div_small. lia. }
  lia.
Qed.

Lemma in_app_marker (pre post : bytes) : In bang (pre ++ end_marker ++ post).
Proof.
  apply in_or_app. right. unfold end_marker. cbn. auto.
Qed.

Lemma split_suffix_has_bang t a b c :
  t = a ++ end_marker ++ b ++ end_marker ++ c ->
  exists content suffix,
    split_at_end_marker t = Some (content, suffix) /\ In bang suffix.
Proof.
  intros E. destruct (split_at_end_marker t) as [[content suffix]|] eqn:S.
  - exists content, suffix. split; [reflexivity|].
    destruct (split_at_end_marker_spec _ _ _ S) as (pre & C & T & Min & _).
    specialize (Min a _ E). rewrite T, C in E.
    replace (a ++ end_marker ++ b ++ end_marker ++ c)
      with ((a ++ end_marker) ++ b ++ end_marker ++ c) in E
      by now rewrite <- app_assoc.
    apply app_eq_app in E as [l [[E1 E2]|[E1 E2]]].
    + apply (f_equal (@length _)) in E1. rewrite !length_app in E1.
      destruct l; [|cbn [length] in E1; lia].
      cbn [app] in E2. rewrite <- E2. apply in_app_marker.
    + rewrite E2. apply in_or_app. right. apply in_app_marker.
  - exfalso. exact (proj1 (split_at_end_marker_none t) S _ _ E).
Qed.

Lemma checkcrc_bang_suffix t content suffix :
  split_at_end_marker t = Some (content, suffix) ->
  In bang suffix ->
  checkcrc t = Raise ValueError \/ checkcrc t = Raise UnicodeDecodeError.
Proof.
  intros S Hin. rewrite (checkcrc_split _ _ _ S). unfold decode_ascii.
  destruct (forallb is_ascii suffix); [left | now right].
  cbn [bind]. rewrite int16_bang; [reflexivity|].
  now apply strip_keeps.
Qed.

Lemma last_bang_unique (l1 : bytes) : forall l2 s1 s2,
  ~ In bang s1 -> ~ In bang s2 ->
  l1 ++ bang :: s1 = l2 ++ bang :: s2 -> l1 = l2 /\ s1 = s2.
Proof.
  induction l1 as [|c l1 IH]; intros [|c' l2] s1 s2 N1 N2 E; cbn [app] in E.
  - injection E as E. now split.
  - injection E as _ E. exfalso. apply N1. rewrite E.
    apply in_or_app. right. apply in_eq.
  - injection E as _ E. exfalso. apply N2. rewrite <- E.
    apply in_or_app. right. apply in_eq.
  - injection E as -> E. destruct (IH _ _ _ N1 N2 E) as [-> ->]. now split.
Qed.

Lemma checkcrc_true_no_bang t content suffix :
  split_at_end_marker t = Some (content, suffix) ->
  checkcrc t = Ok true -> ~ In bang suffix.
Proof.
  intros S V Hin.
  destruct (checkcrc_bang_suffix _ _ _ S Hin) as [R|R]; congruence.
Qed.

(** After a change of one content byte, a cut that leaves no [!] behind
    it is the cut of the unchanged telegram. *)
Lemma changed_content_cut a x y b suffix content' suffix' :
  x <> y ->
  split_at_end_marker ((a ++ x :: b) ++ suffix) = Some (a ++ x :: b, suffix) ->
  ~ In bang suffix ->
  split_at_end_marker ((a ++ y :: b) ++ suffix) = Some (content', suffix') ->
  ~ In bang suffix' ->
  content' = a ++ y :: b /\ suffix' = suffix.
Proof.
  intros ne S N S' N'.
  destruct (split_at_end_marker_spec _ _ _ S) as (pre & C & _ & Min & _).
  destruct (split_at_end_marker_spec _ _ _ S') as (pre' & C' & T' & _).
  subst content'. unfold end_marker in *.
  destruct b as [|z b0 _] using rev_ind.
  - exfalso.
    change (pre ++ [CR; LF; bang]) with (pre ++ [CR; LF] ++ [bang]) in C.
    rewrite app_assoc in C. apply app_inj_tail in C as [Ca ->].
    replace ((pre' ++ [CR; LF; bang]) ++ suffix')
      with ((pre' ++ [CR; LF]) ++ bang :: suffix') in T'
      by (now rewrite <- !app_assoc).
    rewrite <- app_assoc in T'. cbn [app] in T'.
    apply app_eq_app in T' as [l [[E1 E2]|[E1 E2]]].
    + destruct l as [|l0 l]; cbn [app] in E2.
      * injection E2 as E2 _. congruence.
      * injection E2 as <- E2.
        assert (L : (length pre <= length pre')%nat).
        { apply (Min pre' (l ++ [bang] ++ suffix)).
          rewrite E1, <- !app_assoc. reflexivity. }
        apply (f_equal (@length _)) in Ca. rewrite E1 in Ca.
        rewrite !length_app in Ca. cbn [length] in Ca. lia.
    + apply N'. assert (Hin : In bang (y :: suffix)).
      { rewrite E2. apply in_or_app. right. apply in_eq. }
      destruct Hin as [Hy|Hin]; [congruence | contradiction].
  - change (pre ++ [CR; LF; bang]) with (pre ++ [CR; LF] ++ [bang]) in C.
    rewrite app_assoc, app_comm_cons, app_assoc in C.
    apply app_inj_tail in C as [Ca ->].
    replace ((a ++ y :: b0 ++ [bang]) ++ suffix)
      with ((a ++ y :: b0) ++ bang :: suffix) in T'
      by (rewrite <- !app_assoc; cbn [app]; now rewrite <- app_assoc).
    replace ((pre' ++ [CR; LF; bang]) ++ suffix')
      with ((pre' ++ [CR; LF]) ++ bang :: suffix') in T'
      by (now rewrite <- !app_assoc).
    destruct (last_bang_unique _ _ _ _ N N' T') as [E1 E2].
    split; [|now symmetry].
    change (pre' ++ [CR; LF; bang]) with (pre' ++ [CR; LF] ++ [bang]).
    rewrite app_assoc, <- E1, <- app_assoc. reflexivity.
Qed.

(** X1: the CRC-16 is a 16-bit value, and two contents that differ in
    one byte have different CRCs.  So a telegram that [checkcrc] accepts
    is never accepted once one byte of its content is changed and the
    checksum text kept: [checkcrc] returns [False] when the changed
    telegram still has its first end marker in the same place, and
    raises otherwise, [UnboundLocalError] when no end marker is left and
    [ValueError] or [UnicodeDecodeError] when an earlier one has come
    about. *)
Theorem checkcrc_rejects_changed_content_byte :
  (forall data, 0 <= Crc16.crc16 data < 65536)
  /\ (forall a x y b, x <> y ->
        Crc16.crc16 (a ++ x :: b) <> Crc16.crc16 (a ++ y :: b))
  /\ (forall a x y b suffix,
        x <> y ->
        split_at_end_marker ((a ++ x :: b) ++ suffix)
          = Some (a ++ x :: b, suffix) ->
        checkcrc ((a ++ x :: b) ++ suffix) = Ok true ->
        let t' := (a ++ y :: b) ++ suffix in
        checkcrc t' <> Ok true /\
        (split_at_end_marker t' = Some (a ++ y :: b, suffix) ->
         checkcrc t' = Ok false) /\
        (split_at_end_marker t' = None ->
         checkcrc t' = Raise (UnboundLocalError (lit "p1contents"))) /\
        (forall content' suffix',
            split_at_end_marker t' = Some (content', suffix') ->
            (content', suffix') <> (a ++ y :: b, suffix) ->
            checkcrc t' = Raise ValueError
            \/ checkcrc t' = Raise UnicodeDecodeError)).
Proof.
  split; [exact Crc16Facts.crc16_range|]. split.
  - intros a x y b ne E. apply ne. exact (Crc16Facts.crc16_one_byte _ _ _ _ E).
  - intros a x y b suffix ne Sx V t'. subst t'.
    pose proof (checkcrc_true_no_bang _ _ _ Sx V) as N.
    assert (F : split_at_end_marker ((a ++ y :: b) ++ suffix)
                = Some (a ++ y :: b, suffix) ->
                checkcrc ((a ++ y :: b) ++ suffix) = Ok false).
    { intros Sy.
      rewrite (checkcrc_split _ _ _ Sx) in V.
      rewrite (checkcrc_split _ _ _ Sy).
      destruct (decode_ascii suffix) as [text|e]; [|discriminate V].
      cbn [bind] in *.
      destruct (int16 (strip text)) as [given|e]; [|discriminate V].
      cbn [bind] in *. injection V as V. apply Z.eqb_eq in V. f_equal.
      apply Z.eqb_neq. rewrite V. intros E. apply ne.
      exact (Crc16Facts.crc16_one_byte _ _ _ _ E). }
    assert (R : forall content' suffix',
               split_at_end_marker ((a ++ y :: b) ++ suffix)
               = Some (content', suffix') ->
               (content', suffix') <> (a ++ y :: b, suffix) ->
               checkcrc ((a ++ y :: b) ++ suffix) = Raise ValueError
               \/ checkcrc ((a ++ y :: b) ++ suffix)
                  = Raise UnicodeDecodeError).
    { intros content' suffix' Sy D.
      destruct (in_dec ascii_dec bang suffix') as [Hin|N'].
      - exact (checkcrc_bang_suffix _ _ _ Sy Hin).
      - destruct (changed_content_cut _ _ _ _ _ _ _ ne Sx N Sy N')
          as [-> ->].
        now elim D. }
    split; [|split; [exact F|split; [apply checkcrc_no_marker|exact R]]].
    destruct (split_at_end_marker ((a ++ y :: b) ++ suffix))
      as [[content' suffix']|] eqn:Sy.
    + destruct (in_dec ascii_dec bang suffix') as [Hin|N'].
      * destruct (checkcrc_bang_suffix _ _ _ Sy Hin) as [E|E];
          rewrite E; discriminate.
      * destruct (changed_content_cut _ _ _ _ _ _ _ ne Sx N Sy N')
          as [-> ->].
        rewrite (F eq_refl). discriminate.
    + rewrite (checkcrc_no_marker _ Sy). discriminate.
Qed.

Lemma checkcrc_rejects_changed_content_byte_witness :
  checkcrc ((firstn 60 Sample.content ++ "7"%char :: skipn 61 Sample.content)
              ++ lit "DEB0" ++ [CR; LF]) = Ok false
  /\ checkcrc ((firstn 143 Sample.content ++ "?"%char
                  :: skipn 144 Sample.content)
                 ++ lit "DEB0" ++ [CR; LF])
     = Raise (UnboundLocalError (lit "p1contents"))
  /\ checkcrc ((firstn 15 Sample.content ++ bang :: skipn 16 Sample.content)
                 ++ lit "DEB0" ++ [CR; LF])
     = Raise ValueError.
Proof.
  destruct checkcrc_rejects_changed_content_byte as (_ & _ & H).
  split; [|split].
  - apply (H (firstn 60 Sample.content) "6"%char "7"%char
             (skipn 61 Sample.content) (lit "DEB0" ++ [CR; LF]));
      [discriminate | vm_compute; reflexivity..].
  - apply (H (firstn 143 Sample.content) bang "?"%char
             (skipn 144 Sample.content) (lit "DEB0" ++ [CR; LF]));
      [discriminate | vm_compute; reflexivity..].
  - destruct (H (firstn 15 Sample.content) "0"%char bang
                (skipn 16 Sample.content) (lit "DEB0" ++ [CR; LF]))
      as (_ & _ & _ & R);
      [discriminate | vm_compute; reflexivity..|].
    destruct (R (firstn 15 Sample.content ++ [bang])
                (skipn 16 Sample.content ++ lit "DEB0" ++ [CR; LF]))
      as [E|E]; [vm_compute; reflexivity | | exact E |].
    + intros D. apply (f_equal (fun p => length (fst p))) in D.
      vm_compute in D. discriminate D.
    + exfalso. vm_compute in E. discriminate E.
Defined.

(** X2: a telegram whose checksum text is the four upper-case
    hexadecimal digits of the CRC-16 of its content, followed by white
    space only, is accepted. *)
Theorem checkcrc_accepts_crc_of_content :
  forall content tail,
    split_at_end_marker
      (content ++ checksum_text (Crc16.crc16 content) ++ tail)
      = Some (content, checksum_text (Crc16.crc16 content) ++ tail) ->
    forallb isspace tail = true ->
    checkcrc (content ++ checksum_text (Crc16.crc16 content) ++ tail)
    = Ok true.
Proof.
  intros content tail S Ht.
  destruct (checksum_text_spec _ (Crc16Facts.crc16_range content)) as [D V].
  rewrite checkcrc_hex_digits; [|exact S|discriminate|exact D|exact Ht].
  now rewrite V, Z.eqb_refl.
Qed.

Lemma checkcrc_accepts_crc_of_content_witness :
  checkcrc (Sample.content ++ checksum_text (Crc16.crc16 Sample.content)
              ++ [CR; LF]) = Ok true
  /\ checksum_text (Crc16.crc16 Sample.content) = lit "DEB0".
Proof.
  split; [|vm_compute; reflexivity].
  apply checkcrc_accepts_crc_of_content; vm_compute; reflexivity.
Defined.

(** X3: a telegram that holds the end marker [\r\n!] twice never gets a
    verdict: the checksum text of the first marker then holds a [!], and
    [checkcrc] raises [ValueError], or [UnicodeDecodeError] when a byte
    above 127 follows the first marker. *)
Theorem checkcrc_second_end_marker_raises :
  forall t a b c,
    t = a ++ end_marker ++ b ++ end_marker ++ c ->
    checkcrc t = Raise ValueError \/ checkcrc t = Raise UnicodeDecodeError.
Proof.
  intros t a b c E.
  destruct (split_suffix_has_bang _ _ _ _ E) as (content & suffix & S & Hin).
  exact (checkcrc_bang_suffix _ _ _ S Hin).
Qed.

Lemma checkcrc_second_end_marker_raises_witness :
  checkcrc (Sample.telegram "DEB0" ++ lit "!DEB0" ++ [CR; LF])
  = Raise ValueError.
Proof.
  destruct (checkcrc_second_end_marker_raises
              (Sample.telegram "DEB0" ++ lit "!DEB0" ++ [CR; LF])
              (firstn 141 Sample.content) (lit "DEB0")
              (lit "DEB0" ++ [CR; LF]) eq_refl)
    as [H|H]; [exact H|].
  exfalso. vm_compute in H. discriminate H.
Defined.

(** ** More on the line decoder *)

Lemma existsb_eqb_false c s : existsb (Ascii.eqb c) s = false -> ~ In c s.
Proof.
  intros E Hin. assert (existsb (Ascii.eqb c) s = true).
  { apply existsb_exists. exists c. split; [exact Hin | apply Ascii.eqb_refl]. }
  congruence.
Qed.

Lemma registry_code_shape code description :
  dict_get obiscodes code = Some description ->
  ~ In lparen code /\ ~ In rparen code /\
  exists c r, code = c :: r /\ (c = "0"%char \/ c = "1"%char).
Proof.
  intros G. pose proof (registry_forall code_shape code description eq_refl G)
    as H.
  unfold code_shape in H. apply andb_true_iff in H as [H H3].
  apply andb_true_iff in H as [H1 H2].
  apply negb_true_iff in H1, H2.
  split; [now apply existsb_eqb_false|]. split; [now apply existsb_eqb_false|].
  destruct code as [|c r]; [discriminate|]. exists c, r. split; [reflexivity|].
  apply orb_true_iff in H3 as [E|E]; apply Ascii.eqb_eq in E; auto.
Qed.

Lemma lazy_group_found v : forall rest,
  ~ In rparen v -> ~ In LF v -> lazy_group (v ++ rparen :: rest) = Some v.
Proof.
  induction v as [|c v IH]; intros rest Hr Hl; cbn [app lazy_group].
  - now rewrite Ascii.eqb_refl.
  - destruct (Ascii.eqb_spec c ")") as [->|_]; [elim Hr; now left|].
    destruct (Ascii.eqb_spec c LF) as [->|_]; [elim Hl; now left|].
    rewrite IH; [reflexivity| |]; intros H; [apply Hr | apply Hl]; now right.
Qed.

Lemma lazy_group_none s : ~ In rparen s -> lazy_group s = None.
Proof.
  induction s as [|c s IH]; intros Hr; cbn [lazy_group]; [reflexivity|].
  destruct (Ascii.eqb_spec c ")") as [->|_]; [elim Hr; now left|].
  destruct (Ascii.eqb c LF); [reflexivity|].
  rewrite IH; [reflexivity|]. intros H. apply Hr. now right.
Qed.

Lemma findall_skip x : forall k s,
  findall_go (length x + k) (x ++ s) = findall_go k s.
Proof.
  induction x as [|c x IH]; intros k s; [reflexivity|].
  cbn [length app Nat.add findall_go]. apply IH.
Qed.

Lemma findall_no_open x : forall s,
  ~ In lparen x -> findall_go 0 (x ++ s) = findall_go 0 s.
Proof.
  induction x as [|c x IH]; intros s Hn; [reflexivity|].
  cbn [app findall_go].
  destruct (Ascii.eqb_spec c "(") as [->|_]; [elim Hn; now left|].
  apply IH. intros H. apply Hn. now right.
Qed.

Lemma findall_group v rest :
  ~ In rparen v -> ~ In LF v ->
  findall_go 0 (lparen :: v ++ rparen :: rest)
  = (lparen :: v ++ [rparen]) :: findall_go 0 rest.
Proof.
  intros Hr Hl. cbn [findall_go]. unfold lparen at 1.
  rewrite Ascii.eqb_refl, lazy_group_found by assumption.
  f_equal. rewrite <- (findall_skip (v ++ [rparen]) 0 rest).
  rewrite length_app, <- app_assoc. cbn [length app].
  now rewrite Nat.add_0_r.
Qed.

Lemma findall_none s : ~ In rparen s -> findall_go 0 s = [].
Proof.
  induction s as [|c s IH]; intros Hr; cbn [findall_go]; [reflexivity|].
  assert (Hs : ~ In rparen s) by (intros H; apply Hr; now right).
  destruct (Ascii.eqb c "("); [|now apply IH].
  rewrite lazy_group_none by assumption. now apply IH.
Qed.

Lemma obis_of_code code rest :
  ~ In lparen code -> obis_of (code ++ lparen :: rest) = code.
Proof.
  intros Hn. unfold obis_of, split. change (lit "(") with [lparen].
  now rewrite split_at_sep.
Qed.

Lemma obis_of_bare code : ~ In lparen code -> obis_of code = code.
Proof.
  intros Hn. unfold obis_of. change (lit "(") with [lparen].
  now rewrite split_one.
Qed.

Lemma slice_group v : slice_1_m1 (lparen :: v ++ [rparen]) = v.
Proof. unfold slice_1_m1. cbn [tl]. apply removelast_last. Qed.

(** The first piece of a split starts with what was collected so far. *)
Lemma split_go_head sep s : forall cur,
  exists x, hd [] (split_go [sep] 0 cur s) = rev cur ++ x.
Proof.
  induction s as [|c s IH]; intros cur; cbn [split_go].
  - exists []. cbn [hd]. now rewrite app_nil_r.
  - destruct (startswith [sep] (c :: s)).
    + exists []. cbn [hd]. now rewrite app_nil_r.
    + destruct (IH (c :: cur)) as [x Hx]. exists (c :: x). rewrite Hx.
      cbn [rev]. now rewrite <- app_assoc.
Qed.

Section DecoderExtras.

Context {PF : PyFloat}.

Lemma captured_one v :
  captured_group [lparen :: v ++ [rparen]] = Ok v.
Proof.
  unfold captured_group.
  cbn [nth_error of_option bind length Nat.ltb Nat.leb].
  now rewrite slice_group.
Qed.

Lemma captured_two v w :
  captured_group [lparen :: v ++ [rparen]; lparen :: w ++ [rparen]] = Ok w.
Proof.
  unfold captured_group.
  cbn [nth_error of_option bind length Nat.ltb Nat.leb nth].
  now rewrite slice_group.
Qed.

(** X4: lines of the forms [CODE(num*unit)], [CODE(num)] and
    [CODE(stamp)(num*unit)] with a registered code other than the time
    stamp decode to the description of the code, the number [float]
    makes of [num] and the unit ([ValueError] when [float] fails); the
    first group of the two-group form is ignored. *)
Theorem parsetelegramline_well_formed_line :
  forall code description num unit_part stamp,
    dict_get obiscodes code = Some description ->
    code <> timestamp_code ->
    free_of [rparen; LF; star] num ->
    free_of [rparen; LF; star] unit_part ->
    free_of [rparen; LF] stamp ->
    parsetelegramline
      (code ++ lparen :: (num ++ star :: unit_part) ++ [rparen])
      = numeric_row description num unit_part
    /\ parsetelegramline (code ++ lparen :: num ++ [rparen])
       = numeric_row description num []
    /\ parsetelegramline
         (code ++ lparen :: stamp ++ rparen
            :: lparen :: (num ++ star :: unit_part) ++ [rparen])
       = numeric_row description num unit_part.
Proof.
  intros code description num unit_part stamp G ne Fn Fu Fs.
  destruct (registry_code_shape _ _ G) as (Hl & _ & _).
  assert (Nr : ~ In rparen num) by (apply Fn; cbn; auto).
  assert (Nl : ~ In LF num) by (apply Fn; cbn; auto).
  assert (Ns : ~ In star num) by (apply Fn; cbn; auto).
  assert (Ur : ~ In rparen unit_part) by (apply Fu; cbn; auto).
  assert (Ul : ~ In LF unit_part) by (apply Fu; cbn; auto).
  assert (Us : ~ In star unit_part) by (apply Fu; cbn; auto).
  assert (Sr : ~ In rparen stamp) by (apply Fs; cbn; auto).
  assert (Sl : ~ In LF stamp) by (apply Fs; cbn; auto).
  assert (Dr : ~ In rparen (num ++ star :: unit_part)).
  { intros H. apply in_app_or in H as [H|[H|H]];
      [tauto | discriminate H | tauto]. }
  assert (Dl : ~ In LF (num ++ star :: unit_part)).
  { intros H. apply in_app_or in H as [H|[H|H]];
      [tauto | discriminate H | tauto]. }
  unfold numeric_row. split; [|split].
  - rewrite (parsetelegramline_number _ description
               (num ++ star :: unit_part)).
    + now rewrite split_two.
    + now rewrite obis_of_code.
    + unfold findall_groups. rewrite findall_no_open by assumption.
      rewrite (findall_group _ []) by assumption. apply captured_one.
    + now rewrite obis_of_code.
  - rewrite (parsetelegramline_number _ description num).
    + now rewrite split_one.
    + now rewrite obis_of_code.
    + unfold findall_groups. rewrite findall_no_open by assumption.
      rewrite (findall_group _ []) by assumption. apply captured_one.
    + now rewrite obis_of_code.
  - rewrite (parsetelegramline_number _ description
               (num ++ star :: unit_part)).
    + now rewrite split_two.
    + now rewrite obis_of_code.
    + unfold findall_groups. rewrite findall_no_open by assumption.
      rewrite findall_group by assumption.
      rewrite (findall_group _ []) by assumption. apply captured_two.
    + now rewrite obis_of_code.
Qed.

(** X5: a line that is a registered code with no group, or with a
    group that is never closed, raises [IndexError]: [findall] returns
    no match and [values[0]] fails. *)
Theorem parsetelegramline_without_group_raises :
  forall code description,
    dict_get obiscodes code = Some description ->
    parsetelegramline code = Raise IndexError
    /\ (forall v, ~ In rparen v ->
          parsetelegramline (code ++ lparen :: v) = Raise IndexError).
Proof.
  intros code description G.
  destruct (registry_code_shape _ _ G) as (Hl & Hr & _). split.
  - unfold parsetelegramline, parsetelegramline_in.
    rewrite obis_of_bare, G by assumption.
    unfold findall_groups. now rewrite findall_none.
  - intros v Hv. unfold parsetelegramline, parsetelegramline_in.
    rewrite obis_of_code, G by assumption.
    unfold findall_groups. rewrite findall_none; [reflexivity|].
    intros H. apply in_app_or in H as [H|[H|H]];
      [tauto | discriminate H | tauto].
Qed.

(** X6: the empty line and every line whose first character is
    neither [0] nor [1], such as the header line [/...] and the
    checksum line [!...], decode to the empty dictionary and never
    raise. *)
Theorem parsetelegramline_skips_other_lines :
  forall p1line,
    (forall c rest, p1line = c :: rest -> c <> "0"%char /\ c <> "1"%char) ->
    parsetelegramline p1line = Ok None.
Proof.
  intros p1line H. apply parsetelegramline_unregistered.
  destruct (dict_get obiscodes (obis_of p1line)) as [d|] eqn:G;
    [exfalso|reflexivity].
  destruct (registry_code_shape _ _ G) as (_ & _ & c & r & E & Hc).
  unfold obis_of, split in E. change (lit "(") with [lparen] in E.
  destruct p1line as [|x rest]; [discriminate E|].
  destruct (H x rest eq_refl) as [n0 n1].
  cbn [split_go] in E. destruct (startswith [lparen] (x :: rest));
    [discriminate E|].
  destruct (split_go_head lparen rest [x]) as [y Hy].
  rewrite Hy in E. cbn in E. injection E as -> _. tauto.
Qed.

End DecoderExtras.

Lemma parsetelegramline_well_formed_line_witness :
  parsetelegramline (PF := Decimal.pyfloat) Sample.gas_line_1
  = Ok (Some (mkRow (lit "Gas consumption") (Sample.number 12340 3)
                (lit "m3"))).
Proof.
  destruct (parsetelegramline_well_formed_line (PF := Decimal.pyfloat)
              (lit "0-1:24.2.3") (lit "Gas consumption")
              (lit "00012.340") (lit "m3") (lit "230615123000S"))
    as (_ & _ & H).
  - reflexivity.
  - discriminate.
  - intros c [<-|[<-|[<-|[]]]] Hin; vm_compute in Hin; intuition discriminate.
  - intros c [<-|[<-|[<-|[]]]] Hin; vm_compute in Hin; intuition discriminate.
  - intros c [<-|[<-|[]]] Hin; vm_compute in Hin; intuition discriminate.
  - exact H.
Defined.

Lemma parsetelegramline_without_group_raises_witness :
  parsetelegramline (PF := Decimal.pyfloat) (lit "1-0:1.8.1(000123.456*kWh")
  = Raise IndexError.
Proof.
  apply (proj2 (parsetelegramline_without_group_raises
                  (PF := Decimal.pyfloat) (lit "1-0:1.8.1")
                  (lit "Rate 1 (day) - total consumption") eq_refl)
           (lit "000123.456*kWh")).
  intros Hin. vm_compute in Hin. intuition discriminate.
Defined.

Lemma parsetelegramline_skips_other_lines_witness :
  parsetelegramline (PF := Decimal.pyfloat) (lit "!DEB0") = Ok None.
Proof.
  apply parsetelegramline_skips_other_lines.
  intros c rest [= <- _]. split; discriminate.
Defined.

(** ** More on the acquisition loop *)

Lemma contains_spec needle : forall s,
  contains needle s = true <-> exists a b, s = a ++ needle ++ b.
Proof.
  induction s as [|c s IH]; cbn [contains].
  - rewrite orb_false_r, startswith_app. split.
    + intros [r E]. exists [], r. exact E.
    + intros [a [b E]]. destruct a as [|x a]; [|discriminate E].
      exists b. exact E.
  - rewrite orb_true_iff, startswith_app, IH. split.
    + intros [[r E]|[a [b E]]].
      * exists [], r. exact E.
      * exists (c :: a), b. now rewrite E.
    + intros [[|x a] [b E]].
      * left. exists b. exact E.
      * right. injection E as _ E. exists a, b. exact E.
Qed.

Lemma names_differ date : full_name date <> summed_name date.
Proof.
  unfold full_name, summed_name. intros E. apply app_inv_head in E.
  apply (f_equal (@length _)) in E. rewrite !length_app in E. cbn in E. lia.
Qed.

Section LoopExtras.

Context {PF : PyFloat}.

Lemma append_row_other filename row_data fs name :
  filename <> name ->
  dict_get (append_row filename row_data fs) name = dict_get fs name.
Proof. intros ne. unfold append_row. now apply dict_get_set_other. Qed.

Lemma parse_lines_first_fault before : forall output output1 l text e after,
  parse_lines before output = Ok output1 ->
  decode_ascii l = Ok text ->
  parsetelegramline text = Raise e ->
  parse_lines (before ++ l :: after) output = Raise e.
Proof.
  intros output output1 l text e after P D F.
  rewrite parse_lines_app, P. cbn [bind parse_lines]. rewrite D.
  cbn [bind]. now rewrite F.
Qed.

(** X7: when a telegram has passed [checkcrc] and one of its lines
    makes [parsetelegramline] raise, while the lines before it decode,
    the iteration raises that exception before anything is written or
    published, and the handler closes the port. *)
Theorem faulty_line_aborts_telegram :
  forall (st : State) p1line before l after output1 text e,
    forallb is_ascii p1line = true ->
    contains (lit "!") p1line = true ->
    checkcrc (framed st p1line) = Ok true ->
    split CRLF (framed st p1line) = before ++ l :: after ->
    parse_lines before [] = Ok output1 ->
    decode_ascii l = Ok text ->
    parsetelegramline text = Raise e ->
    try_body p1line st = (Raise e, set_p1telegram (framed st p1line) st)
    /\ files (loop_iteration st p1line) = files st
    /\ latest_data (loop_iteration st p1line) = latest_data st
    /\ port_open (loop_iteration st p1line) = false.
Proof.
  intros st p1line before l after output1 text e A M V S P D F.
  assert (T : try_body p1line st
              = (Raise e, set_p1telegram (framed st p1line) st)).
  { rewrite try_body_eq, A, M. cbv zeta.
    rewrite validate_and_process_eq, V.
    apply process_telegram_parse_error. rewrite S.
    exact (parse_lines_first_fault _ _ _ _ _ _ _ P D F). }
  split; [exact T|]. unfold loop_iteration. rewrite T. now repeat split.
Qed.

(** X8: an iteration that completes on an accepted telegram appends
    exactly one row to the day's file and one to the day's summed file,
    each after a header row when the file is new, and leaves every
    other file as it was; the day is the first six characters of the
    time stamp. *)
Theorem telegram_appends_one_row_to_each_file :
  forall (st st' : State) (p1line : bytes),
    try_body p1line st = (Ok tt, st') ->
    contains (lit "!") p1line = true ->
    checkcrc (framed st p1line) = Ok true ->
    exists output p1time timestamp consumption production,
      parse_lines (split CRLF (framed st p1line)) [] = Ok output /\
      dict_get output (lit "Timestamp") = Some (VStr p1time) /\
      to_unixtime p1time = Ok timestamp /\
      total output rate1_consumption rate2_consumption = Ok consumption /\
      total output rate1_production rate2_production = Ok production /\
      let date := firstn 6 p1time in
      dict_get (files st') (full_name date)
        = Some match dict_get (files st) (full_name date) with
               | Some old => old ++ [map snd (full_row output)]
               | None => [map CStr (map fst output);
                          map snd (full_row output)]
               end
      /\ dict_get (files st') (summed_name date)
         = Some match dict_get (files st) (summed_name date) with
                | Some old =>
                    old ++ [[CInt timestamp; cell_of_value consumption;
                             cell_of_value production]]
                | None =>
                    [[CStr (lit "timestamp");
                      CStr (lit "Total consumption");
                      CStr (lit "Total production")];
                     [CInt timestamp; cell_of_value consumption;
                      cell_of_value production]]
                end
      /\ (forall name, name <> full_name date ->
            name <> summed_name date ->
            dict_get (files st') name = dict_get (files st) name).
Proof.
  intros st st' p1line. rewrite try_body_eq.
  destruct (forallb is_ascii p1line); [|discriminate]. cbv zeta.
  intros H M V. rewrite M, validate_and_process_eq, V in H.
  destruct (parse_lines (split CRLF (framed st p1line)) [])
    as [output|e] eqn:P;
    [|rewrite (process_telegram_parse_error _ _ _ P) in H; discriminate].
  rewrite (process_telegram_run _ _ _ P) in H.
  destruct (dict_get output (lit "Timestamp")) as [[p1time|f]|] eqn:T;
    try discriminate.
  cbv zeta in H.
  destruct (can_append _ (full_name _)); [|discriminate].
  destruct (to_unixtime p1time) as [timestamp|e] eqn:U; [|discriminate].
  destruct (total output rate1_consumption rate2_consumption)
    as [consumption|e] eqn:C; [|discriminate].
  destruct (total output rate1_production rate2_production)
    as [production|e] eqn:D; [|discriminate].
  destruct (can_append _ (summed_name _)); [|discriminate].
  injection H as <-.
  exists output, p1time, timestamp, consumption, production.
  do 5 (split; [assumption || reflexivity|]). cbv zeta.
  cbn [files set_latest_data set_files set_p1telegram].
  pose proof (names_differ (firstn 6 p1time)) as ne.
  assert (ne' : summed_name (firstn 6 p1time) <> full_name (firstn 6 p1time))
    by (intros E; apply ne; now symmetry).
  split; [|split].
  - rewrite (append_row_other _ _ _ _ ne').
    rewrite append_row_lookup.
    assert (K : map fst (full_row output) = map fst output)
      by (unfold full_row; rewrite map_map; now apply map_ext).
    now rewrite K.
  - rewrite append_row_lookup, (append_row_other _ _ _ _ ne). reflexivity.
  - intros name n1 n2.
    rewrite !append_row_other; [reflexivity| |]; intros E; subst name; tauto.
Qed.

End LoopExtras.

Lemma faulty_line_aborts_telegram_witness :
  try_body (Sample.crlf "!F15A") SampleFault.before_last_line
  = (Raise ValueError,
     set_p1telegram (concat SampleFault.lines) SampleFault.before_last_line)
  /\ port_open
       (loop_iteration SampleFault.before_last_line (Sample.crlf "!F15A"))
     = false.
Proof.
  destruct (faulty_line_aborts_telegram (PF := Decimal.pyfloat)
              SampleFault.before_last_line (Sample.crlf "!F15A")
              [lit "/XYZ5 meter"; lit "0-0:1.0.0(230615123045S)"]
              (lit "1-0:1.8.1(abc*kWh)") [lit "!F15A"; []]
              [(lit "Timestamp", VStr (lit "230615123045S"))]
              (lit "1-0:1.8.1(abc*kWh)") ValueError)
    as (T & _ & _ & O);
    try (vm_compute; reflexivity); try reflexivity.
  split; [exact T | exact O].
Defined.

Lemma telegram_appends_one_row_to_each_file_witness :
  exists name row rows,
    dict_get
      (files (snd (try_body (Sample.last_line "DEB0")
                     Sample.before_last_line))) name
    = Some (rows ++ [row]).
Proof.
  destruct (telegram_appends_one_row_to_each_file (PF := Decimal.pyfloat)
              Sample.before_last_line
              (snd (try_body (Sample.last_line "DEB0")
                      Sample.before_last_line))
              (Sample.last_line "DEB0"))
    as (output & p1time & timestamp & c & p & _ & _ & _ & _ & _ & _ & H & _).
  - rewrite (surjective_pairing (try_body _ _)) at 1.
    f_equal; vm_compute; reflexivity.
  - vm_compute. reflexivity.
  - vm_compute. reflexivity.
  - cbv zeta in H. exists (summed_name (firstn 6 p1time)).
    destruct (dict_get (files Sample.before_last_line) _) as [old|].
    + eexists _, old. exact H.
    + eexists _, [_]. exact H.
Defined.

Section FramerExtras.

Context {PF : PyFloat}.

Lemma set_p1telegram_twice b b' (st : State) :
  set_p1telegram b (set_p1telegram b' st) = set_p1telegram b st.
Proof. reflexivity. Qed.

Lemma loop_iteration_plain (st : State) l :
  plain_line l ->
  loop_iteration st l = set_p1telegram (p1telegram st ++ l) st.
Proof.
  intros (A & S & E). unfold loop_iteration. rewrite try_body_eq, A, E.
  cbv zeta. unfold framed. now rewrite S.
Qed.

Lemma fold_plain ls : forall (st : State),
  Forall plain_line ls ->
  fold_left loop_iteration ls st
  = match ls with
    | [] => st
    | _ => set_p1telegram (p1telegram st ++ concat ls) st
    end.
Proof.
  induction ls as [|l ls IH]; intros st F; [reflexivity|].
  inversion F as [|? ? Hl Hls]; subst. cbn [fold_left].
  rewrite (loop_iteration_plain _ _ Hl), (IH _ Hls).
  destruct ls as [|l' ls].
  - cbn [concat]. now rewrite app_nil_r.
  - rewrite set_p1telegram_twice. cbn [p1telegram set_p1telegram].
    cbn [concat]. now rewrite <- !app_assoc.
Qed.

Lemma try_body_frame (st : State) l :
  port_open (snd (try_body l st)) = port_open st.
Proof.
  rewrite try_body_eq. destruct (forallb is_ascii l); cbv zeta;
    [|reflexivity].
  destruct (contains (lit "!") l); [|reflexivity].
  rewrite validate_and_process_eq.
  destruct (checkcrc _) as [[|]|e]; try reflexivity.
  now rewrite (proj2 (process_telegram_frame _ _)).
Qed.

(** X9: lines that decode and hold no marker are appended to the
    buffer and change nothing else.  After a line with the start marker
    and any number of such lines, the line with the end marker hands
    [checkcrc] the lines from the start line on, joined, whatever the
    buffer held before the start line. *)
Theorem framer_hands_over_lines_since_start_marker :
  (forall (st : State) ls,
      Forall plain_line ls ->
      let st1 := fold_left loop_iteration ls st in
      p1telegram st1 = p1telegram st ++ concat ls /\
      files st1 = files st /\ latest_data st1 = latest_data st /\
      port_open st1 = port_open st)
  /\ (forall (st : State) start middle last,
        forallb is_ascii start = true ->
        contains (lit "/") start = true ->
        contains (lit "!") start = false ->
        Forall plain_line middle ->
        forallb is_ascii last = true ->
        contains (lit "/") last = false ->
        contains (lit "!") last = true ->
        let telegram := start ++ concat middle ++ last in
        try_body last (fold_left loop_iteration (start :: middle) st)
        = validate_and_process telegram (set_p1telegram telegram st)).
Proof.
  split.
  - intros st ls F st1. subst st1. rewrite (fold_plain _ _ F).
    destruct ls; [|now repeat split].
    cbn [concat]. rewrite app_nil_r. now repeat split.
  - intros st start middle last As Ss Es F Al Sl El telegram.
    cbn [fold_left].
    assert (H0 : loop_iteration st start = set_p1telegram start st).
    { unfold loop_iteration. rewrite try_body_eq, As, Es. cbv zeta.
      unfold framed. now rewrite Ss. }
    rewrite H0, (fold_plain _ _ F), try_body_eq, Al, El. cbv zeta.
    unfold framed. rewrite Sl. subst telegram.
    destruct middle as [|m middle]; cbn [p1telegram set_p1telegram concat];
      rewrite <- ?app_assoc; reflexivity.
Qed.

(** X10: an iteration leaves the serial port open exactly when the
    port was open and the body of [try] raised nothing; every
    exception closes it, and no iteration opens it. *)
Theorem exception_closes_port :
  forall (st : State) p1line,
    port_open (loop_iteration st p1line) = true <->
    port_open st = true /\ fst (try_body p1line st) = Ok tt.
Proof.
  intros st p1line. unfold loop_iteration.
  pose proof (try_body_frame st p1line) as Fr.
  destruct (try_body p1line st) as [[[]|e] st']; cbn [fst snd] in *.
  - rewrite Fr. tauto.
  - cbn [close_port port_open]. split; [discriminate|].
    intros [_ H]. discriminate H.
Qed.

(** X11: [do_GET] answers with the snapshot for exactly the paths in
    which [?live] occurs somewhere, also behind a file name; every
    other path goes to the file handler. *)
Theorem do_GET_live_anywhere :
  forall (path : str) (st : State),
    ((exists a b, path = a ++ lit "?live" ++ b) ->
     do_GET path st
     = Some (mkResponse 200 [(lit "Content-type", lit "application/json")]
               (latest_data st)))
    /\ ((forall a b, path <> a ++ lit "?live" ++ b) ->
        do_GET path st = None).
Proof.
  intros path st. unfold do_GET. split.
  - intros H. apply contains_spec in H. now rewrite H.
  - intros H. destruct (contains (lit "?live") path) eqn:C; [|reflexivity].
    apply contains_spec in C as (a & b & E). elim (H a b E).
Qed.

Lemma write_csv_ok (st : State) filename row :
  can_append st filename = true ->
  snd (write_csv filename row st)
  = set_files (append_row filename row (files st)) st.
Proof. intros C. unfold write_csv. now rewrite C. Qed.

Lemma write_rows_existing rows : forall (st : State) filename old,
  can_append st filename = true ->
  dict_get (files st) filename = Some old ->
  let st' := write_rows filename rows st in
  dict_get (files st') filename = Some (old ++ map (map snd) rows) /\
  (forall name, name <> filename ->
     dict_get (files st') name = dict_get (files st) name) /\
  latest_data st' = latest_data st /\ p1telegram st' = p1telegram st.
Proof.
  unfold write_rows.
  induction rows as [|row rows IH]; intros st filename old C G;
    cbn [fold_left map].
  - rewrite app_nil_r. now repeat split.
  - rewrite (write_csv_ok _ _ _ C).
    destruct (IH (set_files (append_row filename row (files st)) st)
                filename (old ++ [map snd row]) C) as (H1 & H2 & H3 & H4).
    + cbn [files set_files]. now rewrite append_row_lookup, G.
    + rewrite H1, <- app_assoc. split; [reflexivity|].
      split; [|now split].
      intros name ne. rewrite (H2 name ne). cbn [files set_files].
      apply append_row_other. congruence.
Qed.

(** X12: rows written one after another to a file that does not exist
    yet leave the header of the first row followed by the values of
    all rows: the header is written once and the rows only grow, also
    when a later row has other keys.  Other files, the buffer and
    [latest_data] are not touched; when the file cannot be opened,
    [write_csv] raises [OSError] and changes nothing. *)
Theorem write_csv_header_once :
  forall (st : State) filename row rows,
    (can_append st filename = true ->
     dict_get (files st) filename = None ->
     let st' := write_rows filename (row :: rows) st in
     dict_get (files st') filename
       = Some (map CStr (map fst row) :: map (map snd) (row :: rows)) /\
     (forall name, name <> filename ->
        dict_get (files st') name = dict_get (files st) name) /\
     latest_data st' = latest_data st /\ p1telegram st' = p1telegram st)
    /\ (can_append st filename = false ->
        write_csv filename row st = (Raise OSError, st)).
Proof.
  intros st filename row rows. split.
  - intros C G st'. subst st'. unfold write_rows. cbn [fold_left].
    rewrite (write_csv_ok _ _ _ C). fold (write_rows filename rows
      (set_files (append_row filename row (files st)) st)).
    destruct (write_rows_existing rows
                (set_files (append_row filename row (files st)) st)
                filename [map CStr (map fst row); map snd row] C)
      as (H1 & H2 & H3 & H4).
    + cbn [files set_files]. now rewrite append_row_lookup, G.
    + rewrite H1. split; [reflexivity|]. split; [|now split].
      intros name ne. rewrite (H2 name ne). cbn [files set_files].
      apply append_row_other. congruence.
  - intros C. unfold write_csv. now rewrite C.
Qed.

Lemma no_key_in_empty k (v : value) :
  dict_get [] k = Some v -> In k (map snd obiscodes).
Proof. discriminate. Qed.

Lemma parse_lines_keys lines : forall output output',
  (forall k v, dict_get output k = Some v -> In k (map snd obiscodes)) ->
  parse_lines lines output = Ok output' ->
  forall k v, dict_get output' k = Some v -> In k (map snd obiscodes).
Proof.
  induction lines as [|l lines IH]; intros output output' inv;
    cbn [parse_lines].
  - now intros [= <-].
  - destruct (decode_ascii l) as [text|e]; [|discriminate]. cbn [bind].
    destruct (parsetelegramline text) as [[r|]|e] eqn:P; cbn [bind];
      [| |discriminate].
    + apply IH. intros k v.
      destruct (str_eqb (desc r) k) eqn:E.
      * apply str_eqb_eq in E. subst k. intros _.
        apply parsetelegramline_row in P as [G _].
        apply dict_get_In in G. now apply (in_map snd) in G.
      * rewrite dict_get_set_other; [apply inv|].
        intros Hk. rewrite Hk, str_eqb_refl in E. discriminate E.
    + now apply IH.
Qed.

(** X13: in the record folded from the lines of a telegram every key
    is a description of the registry, the time stamp is text and every
    other field a number; so the two sums of [main] either give a
    number or raise [KeyError] for a rate field that is missing, never
    [TypeError]. *)
Theorem record_fields_and_totals :
  forall lines output,
    parse_lines lines [] = Ok output ->
    (forall k v, dict_get output k = Some v ->
       In k (map snd obiscodes) /\
       (k = lit "Timestamp" -> exists s, v = VStr s) /\
       (k <> lit "Timestamp" -> exists f, v = VFloat f))
    /\ (forall day night,
          (day = rate1_consumption /\ night = rate2_consumption)
          \/ (day = rate1_production /\ night = rate2_production) ->
          (exists a b,
              dict_get output day = Some (VFloat a) /\
              dict_get output night = Some (VFloat b) /\
              total output day night = Ok (VFloat (float_add a b)))
          \/ (exists k, (k = day \/ k = night) /\
                dict_get output k = None /\
                total output day night = Raise (KeyError k))).
Proof.
  intros lines output P.
  pose proof (parse_lines_well_typed _ _ _ well_typed_empty P) as wt.
  split.
  - intros k v G. split; [|split].
    + apply (parse_lines_keys _ _ _ (fun k v H => no_key_in_empty k v H)
               P k v G).
    + intros ->. exact (wt _ _ G).
    + intros ne. pose proof (wt _ _ G) as T.
      now rewrite (str_eqb_neq _ _ ne) in T.
  - intros day night Hd.
    assert (Hdn : str_eqb day (lit "Timestamp") = false
                  /\ str_eqb night (lit "Timestamp") = false)
      by (destruct Hd as [[-> ->]|[-> ->]]; split; reflexivity).
    destruct Hdn as [D N].
    destruct (total_cases output day night wt D N)
      as [[G E]|[[G E]|(a & b & Ga & Gb & E)]].
    + right. exists day. auto.
    + right. exists night. auto.
    + left. exists a, b. auto.
Qed.

(** X14: only a line with the start marker empties the buffer.  When
    the buffer still holds the end marker of an earlier telegram and
    ends with a line break, a line that begins with [!] and holds no
    [/] gives [checkcrc] two end markers: the iteration raises, writes
    nothing and closes the port. *)
Theorem end_line_without_start_line_raises :
  forall (st : State) a b rest,
    p1telegram st = a ++ end_marker ++ b ++ [CR; LF] ->
    forallb is_ascii (bang :: rest) = true ->
    contains (lit "/") (bang :: rest) = false ->
    let st' := loop_iteration st (bang :: rest) in
    (fst (try_body (bang :: rest) st) = Raise ValueError
     \/ fst (try_body (bang :: rest) st) = Raise UnicodeDecodeError) /\
    port_open st' = false /\
    files st' = files st /\ latest_data st' = latest_data st.
Proof.
  intros st a b rest B A S st'. subst st'.
  assert (T : framed st (bang :: rest)
              = a ++ end_marker ++ b ++ end_marker ++ rest).
  { unfold framed. rewrite S, B, <- !app_assoc. reflexivity. }
  destruct (split_suffix_has_bang _ _ _ _ T)
    as (content & suffix & Sp & Hin).
  pose proof (checkcrc_bang_suffix _ _ _ Sp Hin) as R.
  assert (E : contains (lit "!") (bang :: rest) = true) by reflexivity.
  unfold loop_iteration. rewrite try_body_eq, A, E. cbv zeta.
  rewrite validate_and_process_eq.
  destruct R as [R|R]; rewrite R; cbn [fst snd]; auto.
Qed.

End FramerExtras.

Lemma framer_hands_over_lines_since_start_marker_witness :
  try_body (Sample.last_line "DEB0")
    (fold_left loop_iteration (removelast (Sample.lines "DEB0"))
       SampleFault.before_last_line)
  = validate_and_process (Sample.telegram "DEB0")
      (set_p1telegram (Sample.telegram "DEB0") SampleFault.before_last_line).
Proof.
  apply (proj2 (framer_hands_over_lines_since_start_marker
                  (PF := Decimal.pyfloat))
           SampleFault.before_last_line (Sample.crlf "/XYZ5 meter")
           [ [CR; LF]; Sample.crlf "0-0:1.0.0(230615123045S)";
             Sample.crlf "1-0:1.8.1(000123.456*kWh)";
             Sample.crlf "1-0:1.8.2(000000.000*kWh)";
             Sample.crlf "1-0:2.8.1(000.000*kWh)";
             Sample.crlf "1-0:2.8.2(000.000*kWh)" ]
           (Sample.last_line "DEB0"));
    try reflexivity.
  repeat (constructor; [repeat split; reflexivity|]). constructor.
Defined.

Lemma exception_closes_port_witness :
  port_open (loop_iteration Sample.start Sample.damaged_line) = false.
Proof.
  destruct (port_open (loop_iteration Sample.start Sample.damaged_line))
    eqn:O; [|reflexivity].
  apply (exception_closes_port (PF := Decimal.pyfloat)) in O as [_ O].
  apply (f_equal (fun r => match r with Ok _ => true | Raise _ => false end))
    in O.
  vm_compute in O. discriminate O.
Defined.

Lemma do_GET_live_anywhere_witness :
  do_GET (lit "/230615.csv?live") Sample.start
  = Some (mkResponse 200 [(lit "Content-type", lit "application/json")] []).
Proof.
  apply (proj1 (do_GET_live_anywhere (PF := Decimal.pyfloat)
                  (lit "/230615.csv?live") Sample.start)).
  exists (lit "/230615.csv"), []. reflexivity.
Defined.

Lemma write_csv_header_once_witness :
  dict_get
    (files (write_rows (lit "data/230615.csv")
              [ [(lit "Timestamp", CStr (lit "230615123045S"))];
                [(lit "timestamp", CInt 1686825045)] ]
              Sample.start))
    (lit "data/230615.csv")
  = Some [ [CStr (lit "Timestamp")]; [CStr (lit "230615123045S")];
           [CInt 1686825045] ].
Proof.
  apply (proj1 (write_csv_header_once (PF := Decimal.pyfloat) Sample.start
                  (lit "data/230615.csv")
                  [(lit "Timestamp", CStr (lit "230615123045S"))]
                  [ [(lit "timestamp", CInt 1686825045)] ]));
    reflexivity.
Defined.

Lemma record_fields_and_totals_witness :
  exists a b,
    total [ (rate1_consumption, Sample.number 15 1);
            (rate2_consumption, Sample.number 20 1) ]
      rate1_consumption rate2_consumption
    = Ok (@VFloat Decimal.pyfloat (float_add a b)).
Proof.
  destruct (proj2 (record_fields_and_totals (PF := Decimal.pyfloat)
                     [lit "1-0:1.8.1(1.5*kWh)"; lit "1-0:1.8.2(2.0*kWh)"]
                     [ (rate1_consumption, Sample.number 15 1);
                       (rate2_consumption, Sample.number 20 1) ]
                     eq_refl)
              rate1_consumption rate2_consumption
              (or_introl (conj eq_refl eq_refl)))
    as [(a & b & _ & _ & E)|(k & Hk & G & _)].
  - exists a, b. exact E.
  - exfalso. destruct Hk as [->| ->]; discriminate G.
Defined.

Lemma end_line_without_start_line_raises_witness :
  port_open
    (loop_iteration
       (snd (try_body (Sample.last_line "DEB0") Sample.before_last_line))
       (Sample.last_line "DEB0")) = false.
Proof.
  apply (end_line_without_start_line_raises (PF := Decimal.pyfloat)
           (snd (try_body (Sample.last_line "DEB0") Sample.before_last_line))
           (firstn 141 Sample.content) (lit "DEB0")
           (lit "DEB0" ++ [CR; LF]));
    vm_compute; reflexivity.
Defined.
